(** * mtg_utils: Scryfall deck exports to TCGPlayer mass entry

    A shallow embedding of [scryfall_csv_to_txt.py] and
    [scryfall_json_to_txt.py], and the properties of the two pipelines.

    Python [str] values are sequences of Unicode code points, modelled as
    [list N]; Python exceptions are an explicit result type; reading,
    writing and printing act on an explicit [world]. *)

From Stdlib Require Import ZArith NArith Bool Lia.
From Stdlib Require Import Ascii String DecimalString.
From stdpp Require Import base option list gmap.

Local Open Scope N_scope.

(** ** Python strings and lists *)

Definition pystr : Type := list N.

(** An ASCII literal as a Python [str]. *)
Definition lit (s : string) : pystr :=
  List.map N_of_ascii (list_ascii_of_string s).
Arguments lit s%_string.

Definition NL : N := 10.
Definition QUOTE : N := 34.
Definition COMMA : N := 44.

(** The exceptions the two scripts can raise.  [OutOfFuel] is not a Python
    exception: it marks a bounded loop of the model hitting its bound, and
    [normalize_name_fuel] shows that it never arises. *)
Inductive exn : Type :=
  | IndexError | ValueError | KeyError | TypeError | AttributeError
  | FileNotFoundError | JSONDecodeError | OutOfFuel.

Inductive res (A : Type) : Type :=
  | Ok (a : A)
  | Raise (e : exn).
Arguments Ok {A} a.
Arguments Raise {A} e.

#[global] Instance res_ret : MRet res := fun A a => Ok a.
#[global] Instance res_bind : MBind res := fun A B k m =>
  match m with
  | Ok a => k a
  | Raise e => Raise e
  end.

Module Py.

(** The non-ASCII part of Unicode's upper-case table ([str.upper] maps one
    code point to one, two or three) is data of the interpreter, not of
    the repository: it is a parameter of the development. *)
Class CaseTable : Type := { upper_beyond_ascii : N -> pystr }.

Definition upper_char `{CaseTable} (c : N) : pystr :=
  if c <? 128 then (if (97 <=? c) && (c <=? 122) then [c - 32] else [c])
  else upper_beyond_ascii c.

(** [s.upper()] *)
Definition upper `{CaseTable} (s : pystr) : pystr :=
  List.flat_map upper_char s.

(** [s.startswith(p)] *)
Fixpoint startswith (s p : pystr) {struct p} : bool :=
  match p, s with
  | [], _ => true
  | c :: p', d :: s' => (c =? d) && startswith s' p'
  | _ :: _, [] => false
  end.

(** [s.endswith(p)] *)
Definition endswith (s p : pystr) : bool :=
  startswith (rev s) (rev p).

Fixpoint lstrip (ch : N) (s : pystr) : pystr :=
  match s with
  | c :: s' => if c =? ch then lstrip ch s' else s
  | [] => []
  end.

(** [s.strip(ch)] for a one-character [ch]: every leading and every
    trailing occurrence goes. *)
Definition strip (ch : N) (s : pystr) : pystr :=
  rev (lstrip ch (rev (lstrip ch s))).

(** [s.split(sep)] for a one-character [sep]. *)
Fixpoint split (sep : N) (s : pystr) : list pystr :=
  match s with
  | [] => [[]]
  | c :: s' =>
      if c =? sep then [] :: split sep s'
      else match split sep s' with
           | f :: fs => (c :: f) :: fs
           | [] => [[c]]
           end
  end.

(** [sep.join(l)] *)
Fixpoint join (sep : pystr) (l : list pystr) : pystr :=
  match l with
  | [] => []
  | x :: l' =>
      match l' with
      | [] => x
      | _ :: _ => x ++ sep ++ join sep l'
      end
  end.

(** [s.replace(c, "")] for a one-character [c]. *)
Definition remove_char (c : N) (s : pystr) : pystr :=
  List.filter (fun d => negb (d =? c)) s.

(** [f.readlines()] on the decoded text of a file opened in text mode:
    line ends are already ["\n"], every line keeps its terminator, and a
    last line without one is kept as it is. *)
Fixpoint readlines (s : pystr) : list pystr :=
  match s with
  | [] => []
  | c :: s' =>
      if c =? NL then [NL] :: readlines s'
      else match readlines s' with
           | l :: ls => (c :: l) :: ls
           | [] => [[c]]
           end
  end.

Definition pystr_eqb (a b : pystr) : bool :=
  bool_decide (a = b).

(** [x in l] for a list of strings. *)
Definition contains (l : list pystr) (x : pystr) : bool :=
  List.existsb (pystr_eqb x) l.

(** [l.index(x)]: the first position of [x], or [ValueError]. *)
Fixpoint index (l : list pystr) (x : pystr) : res Z :=
  match l with
  | [] => Raise ValueError
  | y :: l' =>
      if pystr_eqb y x then Ok 0%Z
      else i ← index l' x; Ok (1 + i)%Z
  end.

(** [l[i]] with Python's negative indices. *)
Definition getitem {A} (l : list A) (i : Z) : res A :=
  let n := Z.of_nat (length l) in
  let j := if (i <? 0)%Z then (n + i)%Z else i in
  if ((0 <=? j) && (j <? n))%Z then
    match l !! Z.to_nat j with
    | Some x => Ok x
    | None => Raise IndexError
    end
  else Raise IndexError.

(** [l[1:]] *)
Definition tail_slice {A} (l : list A) : list A := drop 1 l.

(** ["%d" % z] for an [int]. *)
Definition format_d (z : Z) : pystr :=
  lit (NilZero.string_of_int (Z.to_int z)).

(** [Py_UNICODE_ISSPACE], what [\s] matches in a [str] pattern. *)
Definition isspace (c : N) : bool :=
  ((9 <=? c) && (c <=? 13)) || ((28 <=? c) && (c <=? 32))
  || (c =? 133) || (c =? 160) || (c =? 5760)
  || ((8192 <=? c) && (c <=? 8202))
  || (c =? 8232) || (c =? 8233) || (c =? 8239) || (c =? 8287)
  || (c =? 12288).

End Py.
Import Py.

(** ** The two regular expressions

    Both scripts call [re.sub(pattern, "", name)] with a pattern of the
    shape [(A|B)].  A matcher gives, for the text starting at the current
    position, the length of the match there, if any; [re_sub] scans left to
    right, drops each match, and resumes right after it.  No alternative
    matches the empty string. *)
Module Re.

Definition matcher : Type := pystr -> option nat.

(** [.*]: the longest run without a line feed. *)
Fixpoint dot_star (s : pystr) : nat :=
  match s with
  | c :: s' => if c =? NL then 0%nat else S (dot_star s')
  | [] => 0%nat
  end.

(** [\s//\s.*] *)
Definition two_faced_card_re : matcher := fun s =>
  match s with
  | a :: 47 :: 47 :: b :: s' =>
      if isspace a && isspace b then Some (4 + dot_star s')%nat else None
  | _ => None
  end.

(** [$] without [re.MULTILINE]: at the end, or before a final line feed. *)
Definition at_dollar (s : pystr) : bool :=
  match s with
  | [] => true
  | [c] => c =? NL
  | _ => false
  end.

(** [\sToken$], the tabular script's pattern. *)
Definition token_card_re_csv : matcher := fun s =>
  match s with
  | a :: 84 :: 111 :: 107 :: 101 :: 110 :: s' =>
      if isspace a && at_dollar s' then Some 6%nat else None
  | _ => None
  end.

(** [ Token], the structured script's pattern: a literal space, no anchor. *)
Definition token_card_re_json : matcher := fun s =>
  if startswith s (lit " Token") then Some 6%nat else None.

(** [(A|B)]: the left alternative is tried first. *)
Definition any_of_these (a b : matcher) : matcher := fun s =>
  match a s with
  | Some n => Some n
  | None => b s
  end.

(** [skip] counts the characters of the current match still to drop. *)
Fixpoint re_sub_from (m : matcher) (skip : nat) (s : pystr) : pystr :=
  match s with
  | [] => []
  | c :: s' =>
      match skip with
      | S k => re_sub_from m k s'
      | O =>
          match m s with
          | Some (S k) => re_sub_from m k s'
          | Some O | None => c :: re_sub_from m 0 s'
          end
      end
  end.

(** [re.sub(m, "", s)] *)
Definition re_sub (m : matcher) (s : pystr) : pystr := re_sub_from m 0 s.

End Re.
Import Re.

Definition basic_lands : list pystr :=
  [lit "Plains"; lit "Mountain"; lit "Forest"; lit "Island"; lit "Swamp"].

(** The banner, the same triple-quoted literal in both scripts. *)
Definition banner : pystr :=
  [NL; NL]
  ++ lit "-----------------------------------------------------------" ++ [NL]
  ++ lit "| NOTE:                                                    |" ++ [NL]
  ++ lit "| Basic lands are not supported by TCGPlayer's mass entry. |" ++ [NL]
  ++ lit "| Copy these somewhere so you can find them manually.      |" ++ [NL]
  ++ lit "| They should already be in " ++ [QUOTE] ++ lit "search-ready"
  ++ [QUOTE] ++ lit " format.         |" ++ [NL]
  ++ lit "-----------------------------------------------------------" ++ [NL]
  ++ [NL].

(** ** The world: files, and what was written and printed *)

Inductive event : Type :=
  | Write (path text : pystr)   (* [open(path, "w")] then one [f.write(text)] *)
  | Print (text : pystr).       (* [print(text)] *)

Record world : Type := World {
  files : gmap pystr pystr;
  events : list event
}.

Definition io (A : Type) : Type := world -> res A * world.

#[global] Instance io_ret : MRet io := fun A a w => (Ok a, w).
#[global] Instance io_bind : MBind io := fun A B k m w =>
  match m w with
  | (Ok a, w') => k a w'
  | (Raise e, w') => (Raise e, w')
  end.

Definition lift {A} (r : res A) : io A := fun w => (r, w).

(** [open(path, "r")] and [f.read()] / [f.readlines()] *)
Definition read_file (path : pystr) : io pystr := fun w =>
  match files w !! path with
  | Some text => (Ok text, w)
  | None => (Raise FileNotFoundError, w)
  end.

(** [with open(path, "w") as f: f.write(text)]; the destination is taken
    to be writable. *)
Definition write_file (path text : pystr) : io unit := fun w =>
  (Ok tt, World (<[path := text]> (files w)) (events w ++ [Write path text])).

Definition print (text : pystr) : io unit := fun w =>
  (Ok tt, World (files w) (events w ++ [Print text])).

(** What reached the standard output: [print] ends each text with a line
    feed. *)
Fixpoint stdout (evs : list event) : pystr :=
  match evs with
  | [] => []
  | Print text :: evs' => text ++ [NL] ++ stdout evs'
  | Write _ _ :: evs' => stdout evs'
  end.

(** The texts written to [path], one per write. *)
Fixpoint written (path : pystr) (evs : list event) : list pystr :=
  match evs with
  | [] => []
  | Write p text :: evs' =>
      if pystr_eqb p path then text :: written path evs' else written path evs'
  | Print _ :: evs' => written path evs'
  end.

(** Python's truth value of a [str]. *)
Definition str_truthy (s : pystr) : bool :=
  match s with [] => false | _ :: _ => true end.

(** [for x in xs: st = body st x], stopping at the first exception. *)
Fixpoint for_each {S X} (body : S -> X -> res S) (xs : list X) (st : S) : res S :=
  match xs with
  | [] => Ok st
  | x :: xs' => st' ← body st x; for_each body xs' st'
  end.

(** ** scryfall_csv_to_txt.py *)
Module Csv.

(** The [while] loop of [normalize_name].  Every round reads
    [card[idx_name + name_offset]], so it runs at most
    [len(card) - idx_name] times; [fuel] is that bound. *)
Fixpoint rejoin (fuel : nat) (card : list pystr) (idx_name name_offset : Z)
    (current_str : pystr) (name_pieces : list pystr) : res (list pystr * Z) :=
  if negb (endswith current_str [QUOTE]) then
    match fuel with
    | O => Raise OutOfFuel
    | S fuel' =>
        let name_offset := (name_offset + 1)%Z in
        current_str ← getitem card (idx_name + name_offset);
        rejoin fuel' card idx_name name_offset current_str
               (name_pieces ++ [current_str])
    end
  else Ok (name_pieces, name_offset).

Definition normalize_name (idx_name : Z) (card : list pystr)
    (expected_num_columns : nat) : res (pystr * Z) :=
  name ← getitem card idx_name;
  if startswith name [QUOTE] && (expected_num_columns <? length card)%nat then
    r ← rejoin (Z.to_nat (Z.of_nat (length card) - idx_name)) card idx_name 0
               name [name];
    Ok (strip QUOTE (join [COMMA] r.1), r.2)
  else Ok (name, 0%Z).

Definition fix_other_name_formatting_quirks (name : pystr) : pystr :=
  re_sub (any_of_these two_faced_card_re token_card_re_csv) name.

(** The body of [for card in cards]; the state is [(new_lines, lands)]. *)
Definition card_body `{CaseTable} (csv_column_names : list pystr)
    (idx_count idx_name : Z) (st : list pystr * list pystr)
    (card : list pystr) : res (list pystr * list pystr) :=
  let '(new_lines, lands) := st in
  count ← getitem card idx_count;
  r ← normalize_name idx_name card (length csv_column_names);
  let name := fix_other_name_formatting_quirks r.1 in
  let name_offset := r.2 in
  i ← index csv_column_names (lit "set_code");
  let idx_code := (i + name_offset)%Z in
  j ← index csv_column_names (lit "collector_number");
  let idx_num := (j + name_offset)%Z in
  set_code ← getitem card idx_code;
  num ← getitem card idx_num;
  if contains basic_lands name then
    label ← getitem card (idx_code - 1);
    Ok (new_lines,
        lands ++ [name ++ lit " (" ++ num ++ lit ") - " ++ label
                  ++ lit " (" ++ upper set_code ++ lit ")"])
  else
    Ok (new_lines ++ [count ++ lit " " ++ name ++ lit " ["
                      ++ upper set_code ++ lit "] " ++ num],
        lands).

(** Lines 83 to 108 of [main]: from the text of the file to
    [(new_lines, lands)]. *)
Definition main_lines `{CaseTable} (text : pystr)
    : res (list pystr * list pystr) :=
  let lines := List.map (split COMMA) (readlines text) in
  csv_column_names ← getitem lines 0;
  let cards := tail_slice lines in
  idx_count ← index csv_column_names (lit "count");
  idx_name ← index csv_column_names (lit "name");
  for_each (card_body csv_column_names idx_count idx_name) cards ([], []).

(** Lines 109 to 120. *)
Definition formatted_card_content (new_lines lands : list pystr) : pystr :=
  join [NL] new_lines ++ banner ++ join [NL] lands.

Definition main `{CaseTable} (src_csv dest_filename : pystr) : io unit :=
  text ← read_file src_csv;
  st ← lift (main_lines text);
  let content := formatted_card_content st.1 st.2 in
  if str_truthy dest_filename then write_file dest_filename content
  else print content.

End Csv.

(** ** scryfall_json_to_txt.py *)
Module Json.

(** What [json.loads] returns.  A [dict] keeps its keys in document
    order; numbers with a fraction or an exponent are left out. *)
#[local] Set Warnings "-register-all".
Inductive json : Type :=
  | JNull
  | JBool (b : bool)
  | JInt (z : Z)
  | JStr (s : pystr)
  | JList (l : list json)
  | JDict (kvs : list (pystr * json)).

Fixpoint dict_get (kvs : list (pystr * json)) (key : pystr) : option json :=
  match kvs with
  | [] => None
  | (k, v) :: kvs' => if pystr_eqb k key then Some v else dict_get kvs' key
  end.

(** [v[key]] for a string [key]. *)
Definition subscript (v : json) (key : pystr) : res json :=
  match v with
  | JDict kvs =>
      match dict_get kvs key with
      | Some x => Ok x
      | None => Raise KeyError
      end
  | _ => Raise TypeError
  end.

(** [v.items()] *)
Definition items (v : json) : res (list (pystr * json)) :=
  match v with
  | JDict kvs => Ok kvs
  | _ => Raise AttributeError
  end.

(** [for x in v]: a list gives its elements, a dict its keys, a string
    its characters. *)
Definition iterate (v : json) : res (list json) :=
  match v with
  | JList l => Ok l
  | JDict kvs => Ok (List.map (fun kv => JStr kv.1) kvs)
  | JStr s => Ok (List.map (fun c => JStr [c]) s)
  | _ => Raise TypeError
  end.

(** Python's truth value. *)
Definition truthy (v : json) : bool :=
  match v with
  | JNull => false
  | JBool b => b
  | JInt z => negb (z =? 0)%Z
  | JStr s => str_truthy s
  | JList l => match l with [] => false | _ :: _ => true end
  | JDict kvs => match kvs with [] => false | _ :: _ => true end
  end.

(** The argument of [re.sub] must be a string. *)
Definition re_subject (v : json) : res pystr :=
  match v with
  | JStr s => Ok s
  | _ => Raise TypeError
  end.

(** The receiver of [.upper()] and [.replace()] must be a string. *)
Definition str_receiver (v : json) : res pystr :=
  match v with
  | JStr s => Ok s
  | _ => Raise AttributeError
  end.

(** ["%d" % v]: [bool] is a subclass of [int]. *)
Definition percent_d (v : json) : res pystr :=
  match v with
  | JInt z => Ok (format_d z)
  | JBool b => Ok (format_d (if b then 1 else 0))
  | _ => Raise TypeError
  end.

Definition fix_name_formatting_quirks (name : pystr) : pystr :=
  re_sub (any_of_these two_faced_card_re token_card_re_json) name.

Definition fix_set_code `{CaseTable} (set_code : pystr) : pystr :=
  upper set_code.

(** The three characters of the literal in [fix_collector_number]:
    U+00E2, U+02DC, U+2026. *)
Definition remove_these : pystr := [226; 732; 8230].

Definition fix_collector_number (collector_number : pystr) : pystr :=
  List.fold_left (fun s c => remove_char c s) remove_these collector_number.

(** The body of [for card in cards]; the state is
    [(formatted_cards, lands)]. *)
Definition card_body `{CaseTable} (st : list pystr * list pystr)
    (card : json) : res (list pystr * list pystr) :=
  let '(formatted_cards, lands) := st in
  count ← subscript card (lit "count");
  card_digest ← subscript card (lit "card_digest");
  raw_name ← subscript card_digest (lit "name");
  s ← re_subject raw_name;
  let name := fix_name_formatting_quirks s in
  raw_set ← subscript card_digest (lit "set");
  s ← str_receiver raw_set;
  let set_code := fix_set_code s in
  raw_number ← subscript card_digest (lit "collector_number");
  s ← str_receiver raw_number;
  let collector_number := fix_collector_number s in
  if match raw_name with
     | JStr s => contains basic_lands s
     | _ => false
     end
  then
    Ok (formatted_cards,
        lands ++ [name ++ lit " (" ++ collector_number ++ lit ") - ("
                  ++ set_code ++ lit ")"])
  else
    d ← percent_d count;
    let entry_line := d ++ lit " " ++ name in
    flag ← subscript card (lit "printing_specified");
    let entry_line :=
      if truthy flag
      then entry_line ++ lit " [" ++ set_code ++ lit "] " ++ collector_number
      else entry_line in
    Ok (formatted_cards ++ [entry_line], lands).

(** The body of [for card_section, cards in ...items()]. *)
Definition section_body `{CaseTable} (include : list pystr)
    (st : list pystr * list pystr) (kv : pystr * json)
    : res (list pystr * list pystr) :=
  let '(card_section, cards) := kv in
  let include_cards :=
    contains include card_section || contains include (lit "all") in
  if include_cards then
    cs ← iterate cards;
    for_each card_body cs st
  else Ok st.

(** Lines 80 to 101: from the loaded document to
    [(formatted_cards, lands)]. *)
Definition txt_lines `{CaseTable} (deck_list : json) (include : list pystr)
    : res (list pystr * list pystr) :=
  entries ← subscript deck_list (lit "entries");
  sections ← items entries;
  for_each (section_body include) sections ([], []).

Definition formatted_card_content (formatted_cards : list pystr) : pystr :=
  join [NL] formatted_cards.

(** Lines 104 to 116. *)
Definition land_printout (lands : list pystr) : pystr :=
  match lands with
  | [] => []
  | _ :: _ => banner ++ join [NL] lands
  end.

(** [out] is [None] when the command line gives no [--out]. *)
Definition out_truthy (out : option pystr) : bool :=
  match out with
  | Some s => str_truthy s
  | None => false
  end.

(** Lines 80 to 124: everything after the document is loaded. *)
Definition txt_of_deck_list `{CaseTable} (deck_list : json)
    (include : list pystr) (out : option pystr) : io unit :=
  st ← lift (txt_lines deck_list include);
  _ ← (if out_truthy out
       then write_file (default [] out) (formatted_card_content st.1)
       else print (formatted_card_content st.1));
  print (land_printout st.2).

Section Loader.
(** [json.loads] is the parser of the standard library. *)
Variable json_loads : pystr -> res json.

End Loader.

End Json.

(** ** Notions of the specification

    Written from the specification's words, to state its claims. *)
Module Spec.

(** The pattern matches at the start of [s]. *)
Definition hit (m : matcher) (s : pystr) : bool :=
  match m s with
  | Some _ => true
  | None => false
  end.

(** The pattern matches somewhere in [s]. *)
Fixpoint matches_somewhere (m : matcher) (s : pystr) : bool :=
  hit m s ||
  match s with
  | [] => false
  | _ :: s' => matches_somewhere m s'
  end.

(** The name contains a face separator: two slashes with a white space
    on either side. *)
Definition has_separator (name : pystr) : bool :=
  matches_somewhere two_faced_card_re name.

(** The first face's name: the text before the first face separator. *)
Fixpoint first_face (name : pystr) : pystr :=
  if hit two_faced_card_re name then []
  else match name with
       | [] => []
       | c :: name' => c :: first_face name'
       end.

(** The name holds no line feed. *)
Definition one_line (name : pystr) : bool :=
  List.forallb (fun c => negb (c =? NL)) name.

(** [pat in s] for strings. *)
Definition occurs (pat s : pystr) : bool :=
  matches_somewhere (fun u => if startswith u pat then Some 0%nat else None) s.

(** The sections whose cards the include-set selects, and their cards in
    document order. *)
Definition selected (include : list pystr) (kv : pystr * Json.json) : bool :=
  contains include kv.1 || contains include (lit "all").

Definition cards_of (kv : pystr * Json.json) : list Json.json :=
  match kv.2 with
  | Json.JList l => l
  | _ => []
  end.

Definition selected_cards (include : list pystr)
    (sections : list (pystr * Json.json)) : list Json.json :=
  List.flat_map cards_of (List.filter (selected include) sections).

(** The land block only grows along a loop. *)
Definition grows {X}
    (body : list pystr * list pystr -> X -> res (list pystr * list pystr))
    : Prop :=
  forall st x st', body st x = Ok st' -> forall line, line ∈ st.2 -> line ∈ st'.2.

(** What one invocation emits: the text goes to the destination when one
    is given, to the standard output otherwise. *)
Definition emit (dest text : pystr) : event :=
  if str_truthy dest then Write dest text else Print text.

End Spec.
Import Spec.

(** ** Sample exports

    Small decks in the two formats, for the concrete runs below. *)
Module Sample.

(** A case table that leaves every code point beyond ASCII as it is; the
    samples only hold ASCII set codes. *)
Definition plain_table : CaseTable := {| upper_beyond_ascii c := [c] |}.

Definition header : pystr := lit "count,name,set_code,collector_number,lang".

Definition csv_deck : pystr :=
  header ++ [NL] ++ lit "1,Sol Ring,cmm,400,en" ++ [NL]
  ++ lit "3,Plains,m21,260,en" ++ [NL].

Definition csv_no_lands : pystr :=
  header ++ [NL] ++ lit "1,Sol Ring,cmm,400,en" ++ [NL].

Definition kurbis_row : pystr :=
  lit "1," ++ [QUOTE] ++ lit "Kurbis, Harvest Celebrant" ++ [QUOTE]
  ++ lit ",c21,386,en" ++ [NL].

Definition csv_number_last : pystr :=
  lit "count,name,set_code,collector_number" ++ [NL]
  ++ lit "1,Sol Ring,cmm,400" ++ [NL].

Definition csv_header_only : pystr := lit "count,name".

Definition record (count : Z) (name set number : string) (printing : bool)
    : Json.json :=
  Json.JDict
    [(lit "count", Json.JInt count);
     (lit "printing_specified", Json.JBool printing);
     (lit "card_digest",
      Json.JDict [(lit "name", Json.JStr (lit name));
                  (lit "set", Json.JStr (lit set));
                  (lit "collector_number", Json.JStr (lit number))])].

Definition deck (sections : list (pystr * Json.json)) : Json.json :=
  Json.JDict [(lit "name", Json.JStr (lit "sample"));
              (lit "entries", Json.JDict sections)].

Definition doc_deck : Json.json :=
  deck [(lit "commanders", Json.JList [record 1 "Atraxa" "cmm" "12" true]);
        (lit "lands", Json.JList [record 5 "Plains" "m21" "260" true]);
        (lit "outside", Json.JList [record 2 "Food Token" "eld" "7" false])].

Definition doc_no_lands : Json.json :=
  deck [(lit "commanders", Json.JList [record 1 "Atraxa" "cmm" "12" true])].

Definition doc_maybeboard : Json.json :=
  deck [(lit "commanders", Json.JList [record 1 "Atraxa" "cmm" "12" true]);
        (lit "maybeboard", Json.JList [record 5 "Plains" "m21" "260" true])].

Definition default_include : list pystr :=
  [lit "commanders"; lit "nonlands"; lit "lands"].

Definition empty_world : world := World ∅ [].

Definition world_with (path text : pystr) : world := World {[ path := text ]} [].

End Sample.

(** ** The command line of scryfall_csv_to_txt.py *)
Module Script.

(** The text printed when the script is run without an argument. *)
Definition usage : pystr :=
  [NL]
  ++ lit "Scryfall Deck Export CSV to TCGPlayer Mass Entry Converter" ++ [NL]
  ++ lit "Usage: " ++ [NL]
  ++ lit "    Provide the path to a CSV file (for filename auto-completion, the name typically starts with " ++ [QUOTE] ++ lit "deck-" ++ [QUOTE] ++ [NL]
  ++ lit "    from Scryfall's deck export feature to have it converted" ++ [NL]
  ++ lit "        to a mass entry format consumable by TCGPlayer." ++ [NL]
  ++ lit "    " ++ [NL]
  ++ lit "    Optionally, provide a path to a destination file (does not have to be made already)" ++ [NL]
  ++ lit "        for the output to be saved as a new file" ++ [NL]
  ++ lit "        " ++ [NL]
  ++ lit "KNOWN LIMITATIONS:" ++ [NL]
  ++ lit "    This isn't perfect, still. You'll at least know which cards didn't work because TCGPlayer will tell you, " ++ [NL]
  ++ lit "    and put a dot next to them in the input. There are a few reasons a card will not be recognized in a way that I " ++ [NL]
  ++ lit "    have not yet automated out." ++ [NL]
  ++ lit "    " ++ [NL]
  ++ lit "    1. No basic lands. TCGPlayer's mass-entry system does not support them." ++ [NL]
  ++ lit "            For now, they're translated  at the bottom of your print-out in " ++ [QUOTE] ++ lit "UI Search-Friendly" ++ [QUOTE] ++ lit " format." ++ [NL]
  ++ lit "    " ++ [NL]
  ++ lit "    2. Cards with an off-standard printing do not have the designation in Scryfall," ++ [NL]
  ++ lit "        but they do on TCGPlayer. If some of your cards fail, it may be this. For example, " ++ [NL]
  ++ lit "            1 Blossoming Bogbeast [C21] 386" ++ [NL]
  ++ lit "            needs to become:" ++ [NL]
  ++ lit "            1 Blossoming Bogbeast (Extended Art) [C21] 386" ++ [NL]
  ++ lit "            " ++ [NL]
  ++ lit "    3. Sometimes, the set code is just different. And I have not taken the time to map the differences yet. :) " ++ [NL]
  ++ lit "                " ++ [NL]
  ++ lit "Good luck!  " ++ [NL].


End Script.

(** ** Further notions, for the properties of the code *)
Module Notions.

(** The number of occurrences of [c] in [s]. *)
Definition count_char (c : N) (s : pystr) : nat :=
  length (List.filter (fun d => d =? c) s).

(** The character is one of those [fix_collector_number] removes. *)
Definition artifact (c : N) : bool :=
  List.existsb (fun d => c =? d) Json.remove_these.



End Notions.
Import Notions.

(** * Properties *)

(** ** Sanity checks of the primitives *)

Example banner_length : length banner = 367%nat.
Proof. reflexivity. Qed.

Example split_kurbis :
  split COMMA (lit "1," ++ [QUOTE] ++ lit "Kurbis, Harvest Celebrant" ++ [QUOTE])
  = [lit "1"; [QUOTE] ++ lit "Kurbis"; lit " Harvest Celebrant" ++ [QUOTE]].
Proof. reflexivity. Qed.

Example readlines_ex :
  readlines (lit "ab" ++ [NL] ++ [NL] ++ lit "cd") = [lit "ab" ++ [NL]; [NL]; lit "cd"].
Proof. reflexivity. Qed.

Example format_d_ex : format_d 0 = lit "0" /\ format_d 12 = lit "12" /\ format_d (-3) = lit "-3".
Proof. repeat split; reflexivity. Qed.

(** ** Results, indexing *)

Lemma bind_Ok {A B} (a : A) (k : A -> res B) : (Ok a ≫= k) = k a.
Proof. reflexivity. Qed.
Lemma bind_Raise {A B} e (k : A -> res B) : (Raise e ≫= k) = Raise e.
Proof. reflexivity. Qed.

Lemma getitem_nat {A} (l : list A) (i : nat) :
  getitem l (Z.of_nat i) = match l !! i with Some x => Ok x | None => Raise IndexError end.
Proof.
  unfold getitem.
  destruct (Z.ltb_spec (Z.of_nat i) 0) as [?|_]; [lia|].
  rewrite Nat2Z.id.
  destruct (l !! i) eqn:E.
  - apply lookup_lt_Some in E.
    destruct (Z.leb_spec 0 (Z.of_nat i)); [|lia].
    destruct (Z.ltb_spec (Z.of_nat i) (Z.of_nat (length l))); [reflexivity|lia].
  - destruct (_ && _); reflexivity.
Qed.

Lemma getitem_Ok_lt {A} (l : list A) i x :
  getitem l i = Ok x -> (i < Z.of_nat (length l))%Z.
Proof.
  unfold getitem. intros H.
  destruct (Z.ltb_spec i 0); [lia|].
  destruct (Z.leb_spec 0 i); [|discriminate].
  destruct (Z.ltb_spec i (Z.of_nat (length l))); [lia|discriminate].
Qed.

Lemma getitem_Raise {A} (l : list A) i e :
  getitem l i = Raise e -> e = IndexError.
Proof.
  unfold getitem. intros H.
  destruct (_ && _); [destruct (l !! _)|]; congruence.
Qed.

(** ** [normalize_name] *)

Lemma rejoin_fuel card idx fuel : forall off cur pieces,
  (Z.of_nat (length card) - (idx + off) <= Z.of_nat fuel)%Z ->
  (idx + off < Z.of_nat (length card))%Z ->
  Csv.rejoin fuel card idx off cur pieces <> Raise OutOfFuel.
Proof.
  induction fuel as [|fuel IH]; intros off cur pieces Hf Hlt; simpl.
  - lia.
  - destruct (negb _); [|discriminate].
    destruct (getitem card (idx + (off + 1))) as [nxt|e] eqn:E; simpl.
    + apply IH; [lia|]. apply getitem_Ok_lt in E. exact E.
    + apply getitem_Raise in E. subst e. discriminate.
Qed.

Lemma normalize_name_fuel idx card n :
  Csv.normalize_name idx card n <> Raise OutOfFuel.
Proof.
  unfold Csv.normalize_name.
  destruct (getitem card idx) as [name|e] eqn:E; simpl.
  - destruct (_ && _); [|discriminate].
    pose proof (getitem_Ok_lt _ _ _ E) as Hlt.
    destruct (Csv.rejoin _ card idx 0 name [name]) as [r|e] eqn:R; simpl; [discriminate|].
    intros [= ->]. revert R. apply rejoin_fuel; lia.
  - apply getitem_Raise in E. subst e. discriminate.
Qed.

Lemma rejoin_joins card (i k : nat) last :
  card !! (i + k)%nat = Some last ->
  endswith last [QUOTE] = true ->
  (forall j f, (j < k)%nat -> card !! (i + j)%nat = Some f -> endswith f [QUOTE] = false) ->
  forall n (o : nat) fuel cur pieces,
  (o + n = k)%nat -> (n <= fuel)%nat ->
  card !! (i + o)%nat = Some cur ->
  Csv.rejoin fuel card (Z.of_nat i) (Z.of_nat o) cur pieces
  = Ok (pieces ++ take n (drop (S (i + o)) card), Z.of_nat k).
Proof.
  intros Hlast Hend Hbefore.
  induction n as [|n IH]; intros o fuel cur pieces Hk Hfuel Hcur.
  - assert (o = k) by lia. subst o.
    rewrite Hlast in Hcur. injection Hcur as <-.
    destruct fuel; simpl; rewrite Hend; simpl; rewrite app_nil_r; reflexivity.
  - destruct fuel as [|fuel]; [lia|]. simpl.
    rewrite (Hbefore o cur) by (lia || assumption). simpl.
    destruct (card !! (i + S o)%nat) as [nxt|] eqn:Hn.
    2:{ apply lookup_ge_None in Hn. apply lookup_lt_Some in Hlast. lia. }
    replace (Z.of_nat i + (Z.of_nat o + 1))%Z with (Z.of_nat (i + S o)) by lia.
    rewrite getitem_nat, Hn. simpl.
    replace (Z.of_nat o + 1)%Z with (Z.of_nat (S o)) by lia.
    rewrite (IH (S o) fuel nxt) by (lia || assumption).
    f_equal. f_equal. rewrite <- app_assoc. f_equal.
    rewrite (drop_S card nxt (S (i + o))) by (rewrite <- Hn; f_equal; lia).
    simpl. do 3 f_equal. lia.
Qed.

(** ** The regular expressions and the two normalizers *)

Lemma re_sub_from_all m : forall s k, (length s <= k)%nat -> re_sub_from m k s = [].
Proof.
  induction s as [|c s IH]; intros k Hk; simpl; [reflexivity|].
  destruct k as [|k]; simpl in Hk; [lia|]. apply IH. lia.
Qed.

Lemma re_sub_nowhere m : forall s, matches_somewhere m s = false -> re_sub m s = s.
Proof.
  unfold re_sub. induction s as [|c s IH]; simpl; intros H; [reflexivity|].
  apply orb_false_iff in H as [Hh Hs]. unfold hit in Hh.
  destruct (m (c :: s)); [discriminate|]. f_equal. apply IH, Hs.
Qed.

Lemma dot_star_one_line s : one_line s = true -> dot_star s = length s.
Proof.
  induction s as [|c s IH]; simpl; intros H; [reflexivity|].
  apply andb_true_iff in H as [Hc Hs].
  destruct (c =? NL); [discriminate|]. f_equal. apply IH, Hs.
Qed.

Lemma two_faced_inv s n :
  two_faced_card_re s = Some n ->
  exists a b s', s = a :: 47 :: 47 :: b :: s' /\ isspace a = true /\ isspace b = true
                 /\ n = (4 + dot_star s')%nat.
Proof.
  unfold two_faced_card_re. intros H.
  destruct s as [|a [|x [|y [|b s']]]]; try discriminate;
    try (destruct x as [|p]; [discriminate|]; repeat (destruct p as [p|p|]; try discriminate)).
  all: try (destruct y as [|p]; [discriminate|]; repeat (destruct p as [p|p|]; try discriminate)).
  destruct (isspace a) eqn:Ea; [|discriminate].
  destruct (isspace b) eqn:Eb; [|discriminate].
  injection H as <-. eauto 10.
Qed.

Ltac split_code x :=
  let p := fresh "p" in
  destruct x as [|p]; [discriminate|];
  repeat (destruct p as [p|p|]; try discriminate).

Lemma token_csv_inv s n :
  token_card_re_csv s = Some n ->
  exists a s', s = a :: 84 :: 111 :: 107 :: 101 :: 110 :: s'
               /\ isspace a = true /\ at_dollar s' = true /\ n = 6%nat.
Proof.
  unfold token_card_re_csv. intros H.
  destruct s as [|a [|x1 [|x2 [|x3 [|x4 [|x5 s']]]]]]; try discriminate.
  all: try (split_code x1).
  all: try (split_code x2).
  all: try (split_code x3).
  all: try (split_code x4).
  split_code x5.
  destruct (isspace a) eqn:Ea; [|discriminate].
  destruct (at_dollar s') eqn:Eb; [|discriminate].
  injection H as <-. eauto 10.
Qed.

Lemma startswith_inv p : forall s, startswith s p = true -> exists r, s = p ++ r.
Proof.
  induction p as [|c p IH]; intros s H; simpl in H.
  - exists s. reflexivity.
  - destruct s as [|d s]; [discriminate|].
    apply andb_true_iff in H as [Hc Hs]. apply N.eqb_eq in Hc. subst d.
    destruct (IH _ Hs) as [r ->]. exists r. reflexivity.
Qed.

Lemma startswith_app p r : startswith (p ++ r) p = true.
Proof. induction p as [|c p IH]; simpl; [reflexivity|]. rewrite N.eqb_refl. exact IH. Qed.

Lemma hit_any a b s : hit (any_of_these a b) s = hit a s || hit b s.
Proof. unfold hit, any_of_these. destruct (a s); reflexivity. Qed.

Lemma somewhere_any a b : forall s,
  matches_somewhere (any_of_these a b) s = matches_somewhere a s || matches_somewhere b s.
Proof.
  induction s as [|c s IH]; simpl; rewrite hit_any; [|rewrite IH];
    destruct (hit a _), (hit b _); simpl; try reflexivity.
  all: destruct (matches_somewhere a s); reflexivity.
Qed.

Lemma first_face_prefix : forall s, exists r, s = first_face s ++ r.
Proof.
  induction s as [|c s [r IH]]; simpl.
  - exists []. destruct (hit two_faced_card_re []); reflexivity.
  - destruct (hit two_faced_card_re (c :: s)); [exists (c :: s); reflexivity|].
    exists r. simpl. f_equal. exact IH.
Qed.

Lemma hit_two_faced_app t r :
  hit two_faced_card_re t = true -> hit two_faced_card_re (t ++ r) = true.
Proof.
  unfold hit. destruct (two_faced_card_re t) as [n|] eqn:E; [|discriminate]. intros _.
  apply two_faced_inv in E as (a & b & t' & -> & Ha & Hb & _).
  simpl. rewrite Ha, Hb. reflexivity.
Qed.

Lemma first_face_no_separator : forall s,
  matches_somewhere two_faced_card_re (first_face s) = false.
Proof.
  induction s as [|c s IH]; simpl.
  - reflexivity.
  - destruct (hit two_faced_card_re (c :: s)) eqn:E; [reflexivity|].
    simpl. rewrite IH, orb_false_r.
    destruct (hit two_faced_card_re (c :: first_face s)) eqn:F; [|reflexivity].
    destruct (first_face_prefix s) as [r Hr].
    apply (hit_two_faced_app _ r) in F. simpl in F. rewrite <- Hr in F. congruence.
Qed.

Lemma one_line_cons c s : one_line (c :: s) = true -> c <> NL /\ one_line s = true.
Proof.
  unfold one_line; simpl. intros H. apply andb_true_iff in H as [Hc Hs].
  split; [|exact Hs]. intros ->. discriminate.
Qed.

Lemma two_faced_one_line s n :
  one_line s = true -> two_faced_card_re s = Some n -> n = length s.
Proof.
  intros Hl H. apply two_faced_inv in H as (a & b & s' & -> & _ & _ & ->).
  simpl. do 4 f_equal. apply dot_star_one_line.
  do 4 (apply one_line_cons in Hl as [_ Hl]). exact Hl.
Qed.

Lemma csv_first_face : forall s,
  one_line s = true -> has_separator s = true ->
  Csv.fix_other_name_formatting_quirks s = first_face s.
Proof.
  unfold Csv.fix_other_name_formatting_quirks, re_sub, has_separator.
  induction s as [|c s IH]; intros Hl Hs.
  - discriminate.
  - simpl in Hs |- *. unfold hit in *. unfold any_of_these at 1.
    destruct (two_faced_card_re (c :: s)) as [n|] eqn:E.
    + pose proof (two_faced_one_line _ _ Hl E) as ->. simpl.
      apply re_sub_from_all. lia.
    + simpl in Hs. apply one_line_cons in Hl as [_ Hl].
      destruct (token_card_re_csv (c :: s)) as [n|] eqn:T.
      * exfalso. apply token_csv_inv in T as (a & s' & [= -> ->] & _ & Hd & _).
        destruct s' as [|x [|]]; try discriminate.
        do 5 (apply one_line_cons in Hl as [_ Hl]).
        apply one_line_cons in Hl as [Hx _]. simpl in Hd. apply N.eqb_eq in Hd. contradiction.
      * f_equal. apply IH; assumption.
Qed.

Lemma two_faced_head_space c s :
  hit two_faced_card_re (c :: s) = true -> isspace c = true.
Proof.
  unfold hit. destruct (two_faced_card_re (c :: s)) as [n|] eqn:E; [|discriminate].
  intros _. apply two_faced_inv in E as (a & b & s' & [= -> _] & Ha & _). exact Ha.
Qed.

Lemma first_face_token_json r :
  hit two_faced_card_re (lit " Token" ++ r) = false /\
  first_face (lit " Token" ++ r) = lit " Token" ++ first_face r.
Proof.
  change (lit " Token") with [32; 84; 111; 107; 101; 110]. simpl.
  split; [reflexivity|].
  destruct (hit two_faced_card_re (110 :: r)) eqn:E; [|reflexivity].
  apply two_faced_head_space in E. discriminate.
Qed.

Lemma json_first_face : forall s,
  one_line s = true -> has_separator s = true ->
  matches_somewhere token_card_re_json (first_face s) = false ->
  Json.fix_name_formatting_quirks s = first_face s.
Proof.
  unfold Json.fix_name_formatting_quirks, re_sub, has_separator.
  induction s as [|c s IH]; intros Hl Hs Ht.
  - discriminate.
  - destruct (token_card_re_json (c :: s)) as [n|] eqn:T.
    + exfalso. unfold token_card_re_json in T.
      destruct (startswith (c :: s) (lit " Token")) eqn:S; [|discriminate].
      apply startswith_inv in S as [r Hr]. rewrite Hr in Ht.
      destruct (first_face_token_json r) as [_ Hf]. rewrite Hf in Ht.
      destruct (first_face r); discriminate.
    + simpl in Hs, Ht |- *. unfold any_of_these at 1. unfold hit in *.
      destruct (two_faced_card_re (c :: s)) as [n|] eqn:E.
      * pose proof (two_faced_one_line _ _ Hl E) as ->. simpl.
        apply re_sub_from_all. lia.
      * rewrite T. simpl in Hs, Ht. apply one_line_cons in Hl as [_ Hl].
        apply orb_false_iff in Ht as [_ Ht].
        f_equal. apply IH; assumption.
Qed.

Lemma csv_first_face_fixed s :
  matches_somewhere token_card_re_csv (first_face s) = false ->
  Csv.fix_other_name_formatting_quirks (first_face s) = first_face s.
Proof.
  intros H. apply re_sub_nowhere.
  rewrite somewhere_any, first_face_no_separator, H. reflexivity.
Qed.

Lemma json_first_face_fixed s :
  matches_somewhere token_card_re_json (first_face s) = false ->
  Json.fix_name_formatting_quirks (first_face s) = first_face s.
Proof.
  intros H. apply re_sub_nowhere.
  rewrite somewhere_any, first_face_no_separator, H. reflexivity.
Qed.

(** The tabular normalizer with respect to the token suffix: a name
    without a face separator loses a final " Token", and is left as it is
    when the pattern [\sToken$] matches nowhere in it. *)
Lemma csv_keeps_other_names name :
  has_separator name = false ->
  matches_somewhere token_card_re_csv name = false ->
  Csv.fix_other_name_formatting_quirks name = name.
Proof.
  intros Hs Ht. apply re_sub_nowhere. rewrite somewhere_any.
  unfold has_separator in Hs. rewrite Hs, Ht. reflexivity.
Qed.

Lemma csv_drops_token_suffix : forall stem,
  has_separator (stem ++ lit " Token") = false ->
  Csv.fix_other_name_formatting_quirks (stem ++ lit " Token") = stem.
Proof.
  unfold Csv.fix_other_name_formatting_quirks, re_sub, has_separator.
  induction stem as [|c stem IH]; intros Hs; [vm_compute; reflexivity|].
  change ((c :: stem) ++ lit " Token") with (c :: (stem ++ lit " Token")) in *.
  simpl in Hs |- *. apply orb_false_iff in Hs as [Hh Hs].
  unfold hit in Hh. unfold any_of_these at 1.
  destruct (two_faced_card_re (c :: stem ++ lit " Token")); [discriminate|].
  destruct (token_card_re_csv (c :: stem ++ lit " Token")) as [n|] eqn:T.
  - exfalso. apply token_csv_inv in T as (a & rest & E & _ & Hd & _).
    injection E as _ E.
    assert (Hlen : length (stem ++ lit " Token") = (5 + length rest)%nat)
      by (rewrite E; reflexivity).
    rewrite length_app in Hlen. change (length (lit " Token")) with 6%nat in Hlen.
    destruct rest as [|x [|y rest]]; simpl in Hlen, Hd; try discriminate; [lia|].
    destruct stem as [|d stem]; [discriminate E|]. simpl in Hlen. lia.
  - f_equal. apply IH, Hs.
Qed.

(** ** Running the two pipelines *)

Lemma csv_main_raise `{CaseTable} src dest w text e :
  files w !! src = Some text ->
  Csv.main_lines text = Raise e ->
  Csv.main src dest w = (Raise e, w).
Proof.
  intros Hf Hl. unfold Csv.main, mbind, io_bind, read_file, lift.
  rewrite Hf, Hl. reflexivity.
Qed.

Lemma csv_main_events `{CaseTable} src dest w text new_lines lands :
  files w !! src = Some text ->
  Csv.main_lines text = Ok (new_lines, lands) ->
  (Csv.main src dest w).1 = Ok tt /\
  events (Csv.main src dest w).2
  = events w ++ [emit dest (Csv.formatted_card_content new_lines lands)].
Proof.
  intros Hf Hl. unfold Csv.main, mbind, io_bind, read_file, lift, emit.
  rewrite Hf, Hl. simpl. destruct (str_truthy dest); split; reflexivity.
Qed.

Lemma json_raise `{CaseTable} deck_list include out w e :
  Json.txt_lines deck_list include = Raise e ->
  Json.txt_of_deck_list deck_list include out w = (Raise e, w).
Proof.
  intros Hl. unfold Json.txt_of_deck_list, mbind, io_bind, lift.
  rewrite Hl. reflexivity.
Qed.

Lemma json_events `{CaseTable} deck_list include out w formatted_cards lands :
  Json.txt_lines deck_list include = Ok (formatted_cards, lands) ->
  (Json.txt_of_deck_list deck_list include out w).1 = Ok tt /\
  events (Json.txt_of_deck_list deck_list include out w).2
  = events w ++ [emit (default [] out) (join [NL] formatted_cards);
                 Print (Json.land_printout lands)].
Proof.
  intros Hl. unfold Json.txt_of_deck_list, mbind, io_bind, lift, emit.
  rewrite Hl. simpl.
  destruct out as [[|c out]|]; simpl; rewrite <- app_assoc; split; reflexivity.
Qed.

Lemma stdout_app a b : stdout (a ++ b) = stdout a ++ stdout b.
Proof.
  induction a as [|[p t|t] a IH]; simpl; [reflexivity|exact IH|].
  rewrite IH, <- !app_assoc. reflexivity.
Qed.

Lemma written_app path a b : written path (a ++ b) = written path a ++ written path b.
Proof.
  induction a as [|[p t|t] a IH]; simpl; [reflexivity| |exact IH].
  destruct (pystr_eqb p path); simpl; rewrite IH; reflexivity.
Qed.

(** ** The claims *)

(** C1 (the structured script misses the anchor).  The token suffix is to
    go only at the end of a name.  The tabular normalizer, whose pattern
    ends in [$], leaves "Goblin Token Maker" alone and turns "Food Token"
    into "Food"; the structured normalizer, whose pattern is the bare
    " Token", also cuts it out of the middle: "Goblin Token Maker" becomes
    "Goblin Maker". *)
Theorem C1_token_suffix_mid_string :
  Csv.fix_other_name_formatting_quirks (lit "Food Token") = lit "Food"
  /\ Json.fix_name_formatting_quirks (lit "Food Token") = lit "Food"
  /\ Csv.fix_other_name_formatting_quirks (lit "Goblin Token Maker")
     = lit "Goblin Token Maker"
  /\ Json.fix_name_formatting_quirks (lit "Goblin Token Maker")
     = lit "Goblin Maker".
Proof. repeat split; vm_compute; reflexivity. Qed.

(** C2 (amended).  With the lines an input yields written [(main, lands)]:
    the tabular pipeline emits the main lines, the banner and the land
    lines as one text, banner included when there is no land; the
    structured pipeline emits the main lines, then prints a land printout
    that is empty when there is no land and is the banner followed by the
    land lines otherwise. *)
Theorem C2_banner_by_pipeline `{CaseTable}
    (src_csv dest text : pystr) (w : world) (new_lines lands : list pystr)
    (deck_list : Json.json) (include : list pystr) (out : option pystr)
    (w' : world) (formatted_cards jlands : list pystr) :
  files w !! src_csv = Some text ->
  Csv.main_lines text = Ok (new_lines, lands) ->
  Json.txt_lines deck_list include = Ok (formatted_cards, jlands) ->
  events (Csv.main src_csv dest w).2
  = events w ++ [emit dest (join [NL] new_lines ++ banner ++ join [NL] lands)]
  /\ (lands = [] ->
      events (Csv.main src_csv dest w).2
      = events w ++ [emit dest (join [NL] new_lines ++ banner)])
  /\ (jlands = [] ->
      events (Json.txt_of_deck_list deck_list include out w').2
      = events w' ++ [emit (default [] out) (join [NL] formatted_cards);
                      Print []])
  /\ (jlands <> [] ->
      events (Json.txt_of_deck_list deck_list include out w').2
      = events w' ++ [emit (default [] out) (join [NL] formatted_cards);
                      Print (banner ++ join [NL] jlands)]).
Proof.
  intros Hf Hc Hj.
  destruct (csv_main_events src_csv dest w text new_lines lands Hf Hc) as [_ Ec].
  destruct (json_events deck_list include out w' formatted_cards jlands Hj) as [_ Ej].
  repeat split.
  - exact Ec.
  - intros ->. rewrite Ec. unfold Csv.formatted_card_content. simpl.
    rewrite ?app_nil_r. reflexivity.
  - intros ->. exact Ej.
  - intros Hne. rewrite Ej. destruct jlands; [contradiction|reflexivity].
Qed.

(** C3 (amended).  The tabular pipeline writes its whole text to the
    destination in one write and prints nothing when a destination is
    given, and prints the whole text otherwise.  The structured pipeline
    writes only the main lines to the destination and prints the land
    printout; without a destination it prints the main lines and then the
    land printout. *)
Theorem C3_destination_or_stdout `{CaseTable}
    (src_csv dest text : pystr) (w : world) (new_lines lands : list pystr)
    (deck_list : Json.json) (include : list pystr) (out : option pystr)
    (w' : world) (formatted_cards jlands : list pystr) :
  files w !! src_csv = Some text ->
  Csv.main_lines text = Ok (new_lines, lands) ->
  Json.txt_lines deck_list include = Ok (formatted_cards, jlands) ->
  let whole := join [NL] new_lines ++ banner ++ join [NL] lands in
  let wc := (Csv.main src_csv dest w).2 in
  let wj := (Json.txt_of_deck_list deck_list include out w').2 in
  (dest <> [] ->
     written dest (events wc) = written dest (events w) ++ [whole]
     /\ stdout (events wc) = stdout (events w))
  /\ (dest = [] ->
     stdout (events wc) = stdout (events w) ++ whole ++ [NL]
     /\ forall p, written p (events wc) = written p (events w))
  /\ (forall path, out = Some path -> path <> [] ->
     written path (events wj)
     = written path (events w') ++ [join [NL] formatted_cards]
     /\ stdout (events wj)
        = stdout (events w') ++ Json.land_printout jlands ++ [NL])
  /\ (Json.out_truthy out = false ->
     stdout (events wj)
     = stdout (events w') ++ join [NL] formatted_cards ++ [NL]
       ++ Json.land_printout jlands ++ [NL]
     /\ forall p, written p (events wj) = written p (events w')).
Proof.
  intros Hf Hc Hj whole wc wj.
  destruct (csv_main_events src_csv dest w text new_lines lands Hf Hc) as [_ Ec].
  destruct (json_events deck_list include out w' formatted_cards jlands Hj) as [_ Ej].
  subst wc wj. rewrite Ec, Ej. unfold emit, Csv.formatted_card_content.
  rewrite !stdout_app. simpl.
  split; [|split; [|split]].
  - intros Hd. destruct dest; [contradiction|]. rewrite written_app. simpl.
    unfold pystr_eqb. rewrite bool_decide_eq_true_2 by reflexivity.
    rewrite app_nil_r. split; reflexivity.
  - intros ->. simpl. split; [reflexivity|].
    intros p. rewrite written_app. apply app_nil_r.
  - intros path -> Hp. destruct path; [contradiction|]. rewrite written_app. simpl.
    unfold pystr_eqb. rewrite bool_decide_eq_true_2 by reflexivity.
    split; reflexivity.
  - intros Ho.
    assert (str_truthy (default [] out) = false) as ->
      by (destruct out as [[|c q]|]; [reflexivity|discriminate Ho|reflexivity]).
    simpl. rewrite <- ?app_assoc. split; [reflexivity|].
    intros p. rewrite written_app. apply app_nil_r.
Qed.


(** C4.  A record whose name field starts with a quote and that has more
    fields than the header: [normalize_name] joins that field and the
    following ones with commas, up to the first field ending in a quote,
    strips the quotes around the result and returns the number [k] of
    extra fields as the offset, whatever [k] is; [main] then reads the set
    code and the collector number [k] fields further to the right.  The
    split name of the docstring comes back as "Kurbis, Harvest Celebrant"
    with offset 1. *)
Theorem C4_normalize_name_rejoins `{CaseTable}
    (csv_column_names card : list pystr) (i k : nat)
    (idx_count i_set i_num : Z) (count first last set_code num : pystr)
    (new_lines lands : list pystr) :
  card !! i = Some first ->
  startswith first [QUOTE] = true ->
  card !! (i + k)%nat = Some last ->
  endswith last [QUOTE] = true ->
  (forall j f, (j < k)%nat -> card !! (i + j)%nat = Some f ->
               endswith f [QUOTE] = false) ->
  (length csv_column_names < length card)%nat ->
  getitem card idx_count = Ok count ->
  index csv_column_names (lit "set_code") = Ok i_set ->
  index csv_column_names (lit "collector_number") = Ok i_num ->
  getitem card (i_set + Z.of_nat k) = Ok set_code ->
  getitem card (i_num + Z.of_nat k) = Ok num ->
  let rejoined := strip QUOTE (join [COMMA] (take (S k) (drop i card))) in
  let name := Csv.fix_other_name_formatting_quirks rejoined in
  (forall expected, (expected < length card)%nat ->
     Csv.normalize_name (Z.of_nat i) card expected = Ok (rejoined, Z.of_nat k))
  /\ Csv.card_body csv_column_names idx_count (Z.of_nat i) (new_lines, lands) card
     = (if contains basic_lands name then
          label ← getitem card (i_set + Z.of_nat k - 1);
          Ok (new_lines,
              lands ++ [name ++ lit " (" ++ num ++ lit ") - " ++ label
                        ++ lit " (" ++ upper set_code ++ lit ")"])
        else
          Ok (new_lines ++ [count ++ lit " " ++ name ++ lit " ["
                            ++ upper set_code ++ lit "] " ++ num],
              lands))
  /\ Csv.normalize_name 0
       [[QUOTE] ++ lit "Kurbis"; lit " Harvest Celebrant" ++ [QUOTE]] 1
     = Ok (lit "Kurbis, Harvest Celebrant", 1%Z).
Proof.
  intros Hfirst Hstart Hlast Hend Hbefore Hlen Hcount Hset Hnum Hs Hn rejoined name.
  assert (Hnorm : forall expected, (expected < length card)%nat ->
     Csv.normalize_name (Z.of_nat i) card expected = Ok (rejoined, Z.of_nat k)).
  { intros expected He. unfold Csv.normalize_name.
    rewrite getitem_nat, Hfirst, bind_Ok, Hstart.
    destruct (Nat.ltb_spec expected (length card)) as [_|?]; [|lia].
    pose proof (lookup_lt_Some _ _ _ Hlast) as Hlt.
    rewrite (rejoin_joins card i k last Hlast Hend Hbefore k 0%nat)
      by (lia || (rewrite Nat.add_0_r; exact Hfirst)).
    rewrite bind_Ok. subst rejoined. cbn [fst snd andb].
    rewrite (drop_S card first i Hfirst), Nat.add_0_r. reflexivity. }
  split; [exact Hnorm|]. split; [|vm_compute; reflexivity].
  unfold Csv.card_body.
  rewrite Hcount, bind_Ok, (Hnorm _ Hlen), bind_Ok. cbn [fst snd].
  rewrite Hset, bind_Ok, Hnum, bind_Ok, Hs, bind_Ok, Hn, bind_Ok. reflexivity.
Qed.

(** ** Loops over records *)

Lemma for_each_app {S X} (body : S -> X -> res S) (xs ys : list X) : forall st,
  for_each body (xs ++ ys) st = for_each body xs st ≫= for_each body ys.
Proof.
  induction xs as [|x xs IH]; intros st; simpl; [reflexivity|].
  destruct (body st x) as [st'|e]; simpl; [apply IH|reflexivity].
Qed.

Lemma sections_as_selected_cards `{CaseTable} include sections :
  Forall (fun kv => exists l, kv.2 = Json.JList l) sections ->
  forall st,
  for_each (Json.section_body include) sections st
  = for_each Json.card_body (selected_cards include sections) st.
Proof.
  unfold selected_cards.
  induction 1 as [|[sec v] sections [l Hl] _ IH]; intros st; [reflexivity|].
  simpl in Hl. subst v. simpl.
  unfold selected at 1. cbn [fst snd].
  destruct (contains include sec || contains include (lit "all")); simpl.
  - unfold cards_of at 1. cbn [snd]. rewrite for_each_app.
    destruct (for_each Json.card_body l st) as [st'|e]; simpl; [apply IH|reflexivity].
  - apply IH.
Qed.

(** C6.  For a document whose sections map to lists of records, the lines
    of the structured pipeline are those of processing, one after the
    other, the records of the sections that the include-set names (every
    section when it holds "all"), sections in document order and records
    in the order of their section; the records of the other sections are
    not processed at all. *)
Theorem C6_section_inclusion `{CaseTable} (deck_list : Json.json)
    (include : list pystr) (sections : list (pystr * Json.json)) :
  Json.subscript deck_list (lit "entries") = Ok (Json.JDict sections) ->
  Forall (fun kv => exists l, kv.2 = Json.JList l) sections ->
  Json.txt_lines deck_list include
  = for_each Json.card_body
      (List.flat_map cards_of
         (List.filter
            (fun kv => contains include kv.1 || contains include (lit "all"))
            sections))
      ([], []).
Proof.
  intros He Hs. unfold Json.txt_lines. rewrite He, bind_Ok. simpl.
  apply (sections_as_selected_cards include sections Hs).
Qed.

(** C7.  A record of the structured pipeline that is not a basic land
    renders as "{count} {name}" when its printing_specified flag is false,
    and as "{count} {name} [{SET}] {number}" when it is true, with the
    normalized name, the upper-cased set code and the collector number
    without the artifact characters. *)
Theorem C7_printing_specified `{CaseTable} (card card_digest : Json.json)
    (count : Z) (name set_code number : pystr) (printing : bool)
    (formatted_cards lands : list pystr) :
  Json.subscript card (lit "count") = Ok (Json.JInt count) ->
  Json.subscript card (lit "card_digest") = Ok card_digest ->
  Json.subscript card_digest (lit "name") = Ok (Json.JStr name) ->
  Json.subscript card_digest (lit "set") = Ok (Json.JStr set_code) ->
  Json.subscript card_digest (lit "collector_number") = Ok (Json.JStr number) ->
  Json.subscript card (lit "printing_specified") = Ok (Json.JBool printing) ->
  contains basic_lands name = false ->
  Json.card_body (formatted_cards, lands) card
  = Ok (formatted_cards
        ++ [if printing
            then format_d count ++ lit " " ++ Json.fix_name_formatting_quirks name
                 ++ lit " [" ++ upper set_code ++ lit "] "
                 ++ Json.fix_collector_number number
            else format_d count ++ lit " " ++ Json.fix_name_formatting_quirks name],
        lands).
Proof.
  intros Hc Hd Hn Hs Hnum Hp Hland.
  unfold Json.card_body, mbind, res_bind, Json.fix_set_code.
  rewrite Hc, Hd, Hn. cbn [Json.re_subject].
  rewrite Hs, Hnum. cbn [Json.str_receiver Json.percent_d].
  rewrite Hland, Hp. cbn [Json.truthy].
  destruct printing; rewrite <- ?app_assoc; reflexivity.
Qed.

(** ** Basic lands *)

Lemma contains_true l x : contains l x = true -> x ∈ l.
Proof.
  unfold contains. induction l as [|y l IH]; simpl; [discriminate|].
  intros H. apply orb_true_iff in H as [H|H].
  - unfold pystr_eqb in H. apply bool_decide_eq_true_1 in H. subst y. left.
  - right. apply IH, H.
Qed.

Lemma basic_land_unchanged name :
  contains basic_lands name = true ->
  Json.fix_name_formatting_quirks name = name.
Proof.
  intros H. apply contains_true in H. unfold basic_lands in H.
  repeat (apply elem_of_cons in H as [->|H]; [vm_compute; reflexivity|]).
  apply elem_of_nil in H. contradiction.
Qed.

Lemma for_each_grows {X} (body : list pystr * list pystr -> X -> res _) :
  grows body -> forall xs, grows (fun st (_ : unit) => for_each body xs st).
Proof.
  intros Hg xs. unfold grows.
  induction xs as [|x xs IH]; intros st _ st' Hrun line Hin; simpl in Hrun.
  - injection Hrun as <-. exact Hin.
  - destruct (body st x) as [st1|e] eqn:E; simpl in Hrun; [|discriminate].
    apply (IH st1 tt st' Hrun). apply (Hg st x st1 E line Hin).
Qed.

Lemma for_each_reaches {X} (body : list pystr * list pystr -> X -> res _)
    (x : X) (line : pystr) :
  grows body ->
  (forall st st', body st x = Ok st' -> line ∈ st'.2) ->
  forall xs st st', x ∈ xs -> for_each body xs st = Ok st' -> line ∈ st'.2.
Proof.
  intros Hg Hx. induction xs as [|y xs IH]; intros st st' Hin Hrun.
  - apply elem_of_nil in Hin. contradiction.
  - simpl in Hrun. destruct (body st y) as [st1|e] eqn:E; simpl in Hrun; [|discriminate].
    apply elem_of_cons in Hin as [<-|Hin].
    + apply (for_each_grows body Hg xs _ tt st' Hrun). apply (Hx st st1 E).
    + apply (IH st1 st' Hin Hrun).
Qed.

Lemma appended_last (st st' : list pystr * list pystr) (line : pystr) :
  Ok (st.1, st.2 ++ [line]) = Ok st' -> line ∈ st'.2.
Proof. intros [= <-]. simpl. apply elem_of_app. right. left. Qed.

Ltac step_bind H :=
  match type of H with
  | (?m ≫= _) = Ok _ =>
      let v := fresh "v" in
      destruct m as [v|?]; [rewrite bind_Ok in H | discriminate H]
  end.

Lemma json_card_body_grows `{CaseTable} : grows Json.card_body.
Proof.
  intros [fc ls] card st' Hrun line Hin. unfold Json.card_body in Hrun.
  repeat step_bind Hrun.
  destruct (match _ with Json.JStr s => _ | _ => false end).
  - injection Hrun as <-. simpl in *. apply elem_of_app. left. exact Hin.
  - repeat step_bind Hrun. injection Hrun as <-. exact Hin.
Qed.

Lemma json_section_body_grows `{CaseTable} include :
  grows (Json.section_body include).
Proof.
  intros st [sec cards] st' Hrun line Hin. unfold Json.section_body in Hrun.
  destruct (_ || _).
  - step_bind Hrun.
    apply (for_each_grows _ json_card_body_grows v st tt st' Hrun line Hin).
  - injection Hrun as <-. exact Hin.
Qed.

Lemma csv_card_body_grows `{CaseTable} names idx_count idx_name :
  grows (Csv.card_body names idx_count idx_name).
Proof.
  intros [nl ls] card st' Hrun line Hin. unfold Csv.card_body in Hrun.
  repeat step_bind Hrun.
  destruct (contains basic_lands _).
  - step_bind Hrun. injection Hrun as <-. simpl in *. apply elem_of_app. left. exact Hin.
  - injection Hrun as <-. exact Hin.
Qed.

(** C5 (amended).  A record whose name is one of the five basic lands (the
    raw name in the structured pipeline, the normalized name in the tabular
    one) adds nothing to the main block and one line to the land block,
    with its collector number and its upper-cased set code; that line is in
    the land block of every run that succeeds, in the structured pipeline
    provided the include-set selects the record's section. *)
Theorem C5_basic_land_routing `{CaseTable}
    (deck_list : Json.json) (include : list pystr)
    (sections : list (pystr * Json.json)) (sec : pystr)
    (cards : list Json.json) (card count card_digest : Json.json)
    (name set_code number : pystr)
    (text : pystr) (row : list pystr) (csv_column_names : list pystr)
    (idx_count idx_name name_offset i_set i_num : Z)
    (row_count row_name row_set row_num label : pystr) :
  Json.subscript deck_list (lit "entries") = Ok (Json.JDict sections) ->
  (sec, Json.JList cards) ∈ sections ->
  card ∈ cards ->
  Json.subscript card (lit "count") = Ok count ->
  Json.subscript card (lit "card_digest") = Ok card_digest ->
  Json.subscript card_digest (lit "name") = Ok (Json.JStr name) ->
  Json.subscript card_digest (lit "set") = Ok (Json.JStr set_code) ->
  Json.subscript card_digest (lit "collector_number") = Ok (Json.JStr number) ->
  contains basic_lands name = true ->
  getitem (List.map (split COMMA) (readlines text)) 0 = Ok csv_column_names ->
  row ∈ tail_slice (List.map (split COMMA) (readlines text)) ->
  index csv_column_names (lit "count") = Ok idx_count ->
  index csv_column_names (lit "name") = Ok idx_name ->
  index csv_column_names (lit "set_code") = Ok i_set ->
  index csv_column_names (lit "collector_number") = Ok i_num ->
  getitem row idx_count = Ok row_count ->
  Csv.normalize_name idx_name row (length csv_column_names)
  = Ok (row_name, name_offset) ->
  getitem row (i_set + name_offset) = Ok row_set ->
  getitem row (i_num + name_offset) = Ok row_num ->
  getitem row (i_set + name_offset - 1) = Ok label ->
  contains basic_lands (Csv.fix_other_name_formatting_quirks row_name) = true ->
  let land_line :=
    name ++ lit " (" ++ Json.fix_collector_number number ++ lit ") - ("
    ++ upper set_code ++ lit ")" in
  let row_line :=
    Csv.fix_other_name_formatting_quirks row_name ++ lit " (" ++ row_num
    ++ lit ") - " ++ label ++ lit " (" ++ upper row_set ++ lit ")" in
  (forall formatted_cards lands,
     Json.card_body (formatted_cards, lands) card
     = Ok (formatted_cards, lands ++ [land_line]))
  /\ (forall formatted_cards lands,
        contains include sec || contains include (lit "all") = true ->
        Json.txt_lines deck_list include = Ok (formatted_cards, lands) ->
        land_line ∈ lands)
  /\ (forall new_lines lands,
        Csv.card_body csv_column_names idx_count idx_name (new_lines, lands) row
        = Ok (new_lines, lands ++ [row_line]))
  /\ (forall new_lines lands,
        Csv.main_lines text = Ok (new_lines, lands) -> row_line ∈ lands).
Proof.
  intros He Hsec Hcard Hc Hd Hn Hs Hnum Hland Hhead Hrow Hic Hin His Hinum
         Hrc Hnorm Hrs Hrn Hlabel Hrland land_line row_line.
  assert (Hjson : forall st, Json.card_body st card = Ok (st.1, st.2 ++ [land_line])).
  { intros [fc ls]. unfold Json.card_body, mbind, res_bind, Json.fix_set_code.
    rewrite Hc, Hd, Hn. cbn [Json.re_subject].
    rewrite Hs, Hnum. cbn [Json.str_receiver].
    rewrite Hland, (basic_land_unchanged name Hland). reflexivity. }
  assert (Hcsv : forall st,
            Csv.card_body csv_column_names idx_count idx_name st row
            = Ok (st.1, st.2 ++ [row_line])).
  { intros [nl ls]. unfold Csv.card_body, mbind, res_bind.
    rewrite Hrc, Hnorm. cbn [fst snd]. rewrite His, Hinum, Hrs, Hrn, Hrland, Hlabel.
    reflexivity. }
  split; [intros fc ls; apply (Hjson (fc, ls))|].
  split; [|split; [intros nl ls; apply (Hcsv (nl, ls))|]].
  - intros fc ls Hsel Hrun. unfold Json.txt_lines in Hrun.
    rewrite He, bind_Ok in Hrun. simpl in Hrun.
    refine (for_each_reaches (Json.section_body include) (sec, Json.JList cards)
              land_line (json_section_body_grows include) _ sections ([], [])
              (fc, ls) Hsec Hrun).
    intros st st'. unfold Json.section_body. rewrite Hsel.
    cbn [Json.iterate]. rewrite bind_Ok.
    apply (for_each_reaches Json.card_body card land_line json_card_body_grows);
      [|exact Hcard].
    intros st0 st1. rewrite Hjson. apply appended_last.
  - intros nl ls Hrun. unfold Csv.main_lines in Hrun.
    rewrite Hhead, bind_Ok, Hic, bind_Ok, Hin, bind_Ok in Hrun.
    refine (for_each_reaches _ row row_line (csv_card_body_grows _ _ _) _
              _ ([], []) (nl, ls) Hrow Hrun).
    intros st0 st1. rewrite Hcsv. apply appended_last.
Qed.

(** C8 (amended).  For a name without a line feed that contains a face
    separator, the tabular normalizer yields the first face's name, the
    text before the first separator; normalizing that again changes nothing
    unless the first face itself ends in the token suffix.  The structured
    normalizer does the same when the first face holds no " Token".
    "Virtue of Strength // Garenbrig Growth" gives "Virtue of Strength",
    and that name is left as it is. *)
Theorem C8_first_face_idempotent (name : pystr) :
  has_separator name = true ->
  one_line name = true ->
  Csv.fix_other_name_formatting_quirks name = first_face name
  /\ (matches_somewhere token_card_re_csv (first_face name) = false ->
      Csv.fix_other_name_formatting_quirks
        (Csv.fix_other_name_formatting_quirks name)
      = Csv.fix_other_name_formatting_quirks name)
  /\ (matches_somewhere token_card_re_json (first_face name) = false ->
      Json.fix_name_formatting_quirks name = first_face name
      /\ Json.fix_name_formatting_quirks (Json.fix_name_formatting_quirks name)
         = Json.fix_name_formatting_quirks name)
  /\ Csv.fix_other_name_formatting_quirks
       (lit "Virtue of Strength // Garenbrig Growth") = lit "Virtue of Strength"
  /\ Json.fix_name_formatting_quirks
       (lit "Virtue of Strength // Garenbrig Growth") = lit "Virtue of Strength"
  /\ Csv.fix_other_name_formatting_quirks (lit "Virtue of Strength")
     = lit "Virtue of Strength"
  /\ Json.fix_name_formatting_quirks (lit "Virtue of Strength")
     = lit "Virtue of Strength".
Proof.
  intros Hsep Hline.
  pose proof (csv_first_face name Hline Hsep) as Hcsv.
  split; [exact Hcsv|]. split; [|split].
  - intros Htok. rewrite Hcsv. apply csv_first_face_fixed, Htok.
  - intros Htok. pose proof (json_first_face name Hline Hsep Htok) as Hjson.
    split; [exact Hjson|]. rewrite Hjson. apply json_first_face_fixed, Htok.
  - repeat split; vm_compute; reflexivity.
Qed.

(** ** Missing columns and keys *)

Lemma index_missing l x : contains l x = false -> index l x = Raise ValueError.
Proof.
  unfold contains. induction l as [|y l IH]; simpl; [reflexivity|].
  intros H. apply orb_false_iff in H as [Hy Hl].
  unfold pystr_eqb in *.
  rewrite bool_decide_eq_false in Hy.
  rewrite bool_decide_eq_false_2 by congruence.
  rewrite (IH Hl). reflexivity.
Qed.

Lemma index_Raise l x e : index l x = Raise e -> e = ValueError.
Proof.
  induction l as [|y l IH]; simpl; [congruence|].
  destruct (pystr_eqb y x); [discriminate|].
  destruct (index l x); simpl; [discriminate|]. intros [= <-]. apply IH. reflexivity.
Qed.

Lemma rejoin_Raise card idx fuel : forall off cur pieces e,
  Csv.rejoin fuel card idx off cur pieces = Raise e ->
  e = IndexError \/ e = OutOfFuel.
Proof.
  induction fuel as [|fuel IH]; intros off cur pieces e; simpl.
  - destruct (negb _); [|discriminate]. intros [= <-]. right. reflexivity.
  - destruct (negb _); [|discriminate].
    destruct (getitem card (idx + (off + 1))) as [nxt|e'] eqn:E; simpl.
    + apply IH.
    + intros [= <-]. left. apply (getitem_Raise _ _ _ E).
Qed.

Lemma normalize_name_Raise idx card n e :
  Csv.normalize_name idx card n = Raise e -> e = IndexError.
Proof.
  intros H. pose proof (normalize_name_fuel idx card n) as Hfuel.
  rewrite H in Hfuel. unfold Csv.normalize_name in H.
  destruct (getitem card idx) as [name|e'] eqn:E; simpl in H.
  - destruct (_ && _); [|discriminate].
    destruct (Csv.rejoin _ card idx 0 name [name]) as [r|e'] eqn:R; simpl in H;
      [discriminate|].
    injection H as ->. apply rejoin_Raise in R as [->| ->]; [reflexivity|congruence].
  - injection H as <-. apply (getitem_Raise _ _ _ E).
Qed.

Lemma card_body_missing_column `{CaseTable} names idx_count idx_name st card :
  contains names (lit "set_code") = false
  \/ contains names (lit "collector_number") = false ->
  exists e, (e = ValueError \/ e = IndexError)
            /\ Csv.card_body names idx_count idx_name st card = Raise e.
Proof.
  intros Hmiss. destruct st as [nl ls]. unfold Csv.card_body.
  destruct (getitem card idx_count) as [count|e] eqn:Ec.
  2:{ exists e. split; [right; apply (getitem_Raise _ _ _ Ec)|reflexivity]. }
  rewrite bind_Ok.
  destruct (Csv.normalize_name idx_name card (length names)) as [r|e] eqn:En.
  2:{ exists e. split; [right; apply (normalize_name_Raise _ _ _ _ En)|reflexivity]. }
  rewrite bind_Ok. exists ValueError. split; [left; reflexivity|].
  destruct (index names (lit "set_code")) as [i|e] eqn:Ei.
  2:{ rewrite (index_Raise _ _ _ Ei). reflexivity. }
  rewrite bind_Ok.
  destruct Hmiss as [Hs|Hn].
  - rewrite (index_missing _ _ Hs) in Ei. discriminate.
  - rewrite (index_missing _ _ Hn). reflexivity.
Qed.

Lemma main_lines_missing_column `{CaseTable} text header_line record_line more :
  readlines text = header_line :: record_line :: more ->
  contains (split COMMA header_line) (lit "set_code") = false
  \/ contains (split COMMA header_line) (lit "collector_number") = false ->
  exists e, (e = ValueError \/ e = IndexError) /\ Csv.main_lines text = Raise e.
Proof.
  intros Hlines Hmiss. set (names := split COMMA header_line) in *.
  unfold Csv.main_lines. rewrite Hlines. cbn [List.map].
  change (getitem (split COMMA header_line :: _) 0) with (Ok (A:=list pystr) names).
  rewrite bind_Ok.
  destruct (index names (lit "count")) as [ic|e] eqn:Eic.
  2:{ exists e. split; [left; apply (index_Raise _ _ _ Eic)|reflexivity]. }
  rewrite bind_Ok.
  destruct (index names (lit "name")) as [iname|e] eqn:Ein.
  2:{ exists e. split; [left; apply (index_Raise _ _ _ Ein)|reflexivity]. }
  rewrite bind_Ok. unfold tail_slice. cbn [drop for_each].
  destruct (card_body_missing_column names ic iname ([], [])
              (split COMMA record_line) Hmiss) as (e & He & Hbody).
  exists e. split; [exact He|]. rewrite Hbody. reflexivity.
Qed.

(** The bound of the loop of [normalize_name] is never hit in a run of the
    tabular pipeline. *)
Lemma card_body_fuel `{CaseTable} names idx_count idx_name st card :
  Csv.card_body names idx_count idx_name st card <> Raise OutOfFuel.
Proof.
  destruct st as [nl ls]. unfold Csv.card_body.
  destruct (getitem card idx_count) as [count|e] eqn:E1;
    [rewrite bind_Ok | rewrite (getitem_Raise _ _ _ E1); discriminate].
  destruct (Csv.normalize_name idx_name card (length names)) as [r|e] eqn:E2;
    [rewrite bind_Ok | rewrite (normalize_name_Raise _ _ _ _ E2); discriminate].
  destruct (index names (lit "set_code")) as [i|e] eqn:E3;
    [rewrite bind_Ok | rewrite (index_Raise _ _ _ E3); discriminate].
  destruct (index names (lit "collector_number")) as [j|e] eqn:E4;
    [rewrite bind_Ok | rewrite (index_Raise _ _ _ E4); discriminate].
  destruct (getitem card (i + r.2)) as [set_code|e] eqn:E5;
    [rewrite bind_Ok | rewrite (getitem_Raise _ _ _ E5); discriminate].
  destruct (getitem card (j + r.2)) as [num|e] eqn:E6;
    [rewrite bind_Ok | rewrite (getitem_Raise _ _ _ E6); discriminate].
  destruct (contains basic_lands _); [|discriminate].
  destruct (getitem card (i + r.2 - 1)) as [label|e] eqn:E7;
    [discriminate | rewrite (getitem_Raise _ _ _ E7); discriminate].
Qed.

Lemma for_each_never {S X} (body : S -> X -> res S) (e : exn) :
  (forall st x, body st x <> Raise e) ->
  forall xs st, for_each body xs st <> Raise e.
Proof.
  intros Hb. induction xs as [|x xs IH]; intros st; simpl; [discriminate|].
  destruct (body st x) as [st'|e'] eqn:E; simpl; [apply IH|].
  intros [= ->]. apply (Hb st x E).
Qed.

Lemma main_lines_fuel `{CaseTable} text : Csv.main_lines text <> Raise OutOfFuel.
Proof.
  unfold Csv.main_lines.
  destruct (getitem _ 0) as [names|e] eqn:E1;
    [rewrite bind_Ok | rewrite (getitem_Raise _ _ _ E1); discriminate].
  destruct (index names (lit "count")) as [i|e] eqn:E2;
    [rewrite bind_Ok | rewrite (index_Raise _ _ _ E2); discriminate].
  destruct (index names (lit "name")) as [j|e] eqn:E3;
    [rewrite bind_Ok | rewrite (index_Raise _ _ _ E3); discriminate].
  apply for_each_never. intros st x. apply card_body_fuel.
Qed.

(** C9 (amended).  A tabular input whose header lacks [count] or [name]
    raises [ValueError]; one whose header lacks [set_code] or
    [collector_number] raises as soon as it holds a record; a structured
    input without the key "entries" raises [KeyError].  In each case the
    invocation ends there: nothing is written and nothing is printed. *)
Theorem C9_missing_schema_element `{CaseTable}
    (src_csv dest text : pystr) (w : world)
    (header_line : pystr) (record_lines : list pystr)
    (kvs : list (pystr * Json.json)) (include : list pystr)
    (out : option pystr) (w' : world) :
  files w !! src_csv = Some text ->
  readlines text = header_line :: record_lines ->
  Json.dict_get kvs (lit "entries") = None ->
  let csv_column_names := split COMMA header_line in
  (contains csv_column_names (lit "count") = false
   \/ contains csv_column_names (lit "name") = false ->
   Csv.main src_csv dest w = (Raise ValueError, w))
  /\ (contains csv_column_names (lit "set_code") = false
      \/ contains csv_column_names (lit "collector_number") = false ->
      record_lines <> [] ->
      exists e, (e = ValueError \/ e = IndexError)
                /\ Csv.main src_csv dest w = (Raise e, w))
  /\ Json.txt_of_deck_list (Json.JDict kvs) include out w' = (Raise KeyError, w').
Proof.
  intros Hf Hlines Hkey names. split; [|split].
  - intros Hmiss. apply (csv_main_raise _ _ _ text _ Hf).
    unfold Csv.main_lines. rewrite Hlines. cbn [List.map].
    change (getitem (split COMMA header_line :: _) 0) with (Ok (A:=list pystr) names).
    rewrite bind_Ok. fold names.
    destruct Hmiss as [Hc|Hn].
    + rewrite (index_missing _ _ Hc). reflexivity.
    + destruct (index names (lit "count")) as [i|e] eqn:Ei.
      * rewrite bind_Ok, (index_missing _ _ Hn). reflexivity.
      * rewrite (index_Raise _ _ _ Ei). reflexivity.
  - intros Hmiss Hrec.
    destruct record_lines as [|record_line record_lines]; [contradiction|].
    destruct (main_lines_missing_column text header_line record_line record_lines
                Hlines Hmiss) as (e & He & Hrun).
    exists e. split; [exact He|]. apply (csv_main_raise _ _ _ text _ Hf Hrun).
  - apply json_raise. unfold Json.txt_lines, Json.subscript. rewrite Hkey. reflexivity.
Qed.

(** ** Line terminators *)

Lemma startswith_app_l s t p : startswith s p = true -> startswith (s ++ t) p = true.
Proof.
  intros H. apply startswith_inv in H as [r ->]. rewrite <- app_assoc.
  apply startswith_app.
Qed.

Lemma endswith_app a b p : endswith b p = true -> endswith (a ++ b) p = true.
Proof. unfold endswith. rewrite rev_app_distr. apply startswith_app_l. Qed.

Lemma endswith_NL_cons c s :
  endswith (c :: s) [NL] = true -> (s = [] /\ c = NL) \/ endswith s [NL] = true.
Proof.
  unfold endswith. intros H. destruct s as [|d s]; [left|right].
  - change (rev [c]) with [c] in H. change (rev [NL]) with [NL] in H.
    cbn [startswith] in H. apply andb_true_iff in H as [H _].
    apply N.eqb_eq in H. split; [reflexivity|]. symmetry. exact H.
  - change (rev (c :: d :: s)) with (rev (d :: s) ++ [c]) in H.
    destruct (rev (d :: s)) as [|x l] eqn:E.
    + simpl in E. destruct (rev s); discriminate.
    + exact H.
Qed.

Lemma split_last s :
  exists f, last (split COMMA s) = Some f
            /\ (endswith s [NL] = true -> endswith f [NL] = true).
Proof.
  induction s as [|c s (f & Hlast & Hend)]; simpl.
  - exists []. split; [reflexivity|]. discriminate.
  - destruct (split COMMA s) as [|f0 fs] eqn:Es; [discriminate|].
    destruct (N.eqb_spec c COMMA) as [->|Hc].
    + exists f. split; [exact Hlast|]. intros H.
      apply endswith_NL_cons in H as [[_ H]|H]; [discriminate|]. apply Hend, H.
    + destruct fs as [|f1 fs].
      * injection Hlast as <-. exists (c :: f0). split; [reflexivity|]. intros H.
        apply endswith_NL_cons in H as [[-> ->]|H].
        -- injection Es as <-. reflexivity.
        -- apply (endswith_app [c]), Hend, H.
      * exists f. split; [exact Hlast|]. intros H.
        apply endswith_NL_cons in H as [[-> _]|H]; [discriminate|]. apply Hend, H.
Qed.

Lemma readlines_terminated : forall text i line,
  readlines text !! i = Some line ->
  (S i < length (readlines text))%nat ->
  endswith line [NL] = true.
Proof.
  induction text as [|c text IH]; intros i line Hi Hlen; simpl in *; [discriminate|].
  destruct (c =? NL).
  - destruct i as [|i]; simpl in *.
    + injection Hi as <-. reflexivity.
    + apply (IH i line Hi). lia.
  - destruct (readlines text) as [|l ls] eqn:E.
    + simpl in Hlen. lia.
    + destruct i as [|i]; simpl in *.
      * injection Hi as <-. apply (endswith_app [c]).
        apply (IH 0%nat l); [reflexivity|lia].
      * apply (IH (S i) line Hi). lia.
Qed.

Lemma contains_app l1 l2 x : contains (l1 ++ l2) x = contains l1 x || contains l2 x.
Proof. unfold contains. apply existsb_app. Qed.

Lemma getitem_last {A} (l : list A) (i : Z) (x : A) :
  (i = Z.of_nat (length l) - 1)%Z -> getitem l i = Ok x -> last l = Some x.
Proof.
  intros -> H. destruct l as [|a l]; [discriminate|].
  replace (Z.of_nat (length (a :: l)) - 1)%Z with (Z.of_nat (length l)) in H
    by (simpl; lia).
  rewrite getitem_nat in H. rewrite last_lookup. simpl.
  destruct ((a :: l) !! length l); congruence.
Qed.

(** C10 (amended).  The tabular pipeline splits every line with its
    terminator: a line of the file that is not the last one ends in a line
    feed, and so does its last field.  In the header too: when
    collector_number is the final column of the header and the export holds
    a record, the header's last name is "collector_number" followed by a
    line feed, the lookup of "collector_number" fails and no line is
    rendered.  A rendered non-land line ends in the line feed when the
    record's collector number is the last field of its own line. *)
Theorem C10_line_terminator_kept `{CaseTable}
    (text header_line record_line : pystr) (more : list pystr)
    (columns : list pystr)
    (csv_column_names : list pystr) (idx_count idx_name j : Z)
    (line : pystr) (r : pystr * Z)
    (new_lines lands new_lines' lands' : list pystr) :
  readlines text = header_line :: record_line :: more ->
  split COMMA header_line = columns ++ [lit "collector_number" ++ [NL]] ->
  contains columns (lit "collector_number") = false ->
  endswith line [NL] = true ->
  Csv.normalize_name idx_name (split COMMA line) (length csv_column_names) = Ok r ->
  index csv_column_names (lit "collector_number") = Ok j ->
  (j + r.2 = Z.of_nat (length (split COMMA line)) - 1)%Z ->
  contains basic_lands (Csv.fix_other_name_formatting_quirks r.1) = false ->
  Csv.card_body csv_column_names idx_count idx_name (new_lines, lands)
    (split COMMA line) = Ok (new_lines', lands') ->
  (forall text' i line', readlines text' !! i = Some line' ->
     (S i < length (readlines text'))%nat ->
     exists field, last (split COMMA line') = Some field
                   /\ endswith field [NL] = true)
  /\ (exists e, (e = ValueError \/ e = IndexError)
                /\ Csv.main_lines text = Raise e)
  /\ (exists rendered, new_lines' = new_lines ++ [rendered]
                       /\ endswith rendered [NL] = true).
Proof.
  intros Hlines Hhead Hcols Hline Hnorm Hj Hlast Hland Hrun.
  split; [|split].
  - intros text' i line' Hi Hlen.
    destruct (split_last line') as (f & Hf & Hend). exists f.
    split; [exact Hf|]. apply Hend, (readlines_terminated text' i line' Hi Hlen).
  - apply (main_lines_missing_column text header_line record_line more Hlines).
    right. rewrite Hhead, contains_app, Hcols. vm_compute. reflexivity.
  - unfold Csv.card_body, mbind, res_bind in Hrun.
    destruct (getitem (split COMMA line) idx_count) as [count|]; [|discriminate].
    rewrite Hnorm, Hland, Hj in Hrun.
    destruct (index csv_column_names (lit "set_code")) as [i|]; [|discriminate].
    destruct (getitem (split COMMA line) (i + r.2)) as [set_code|]; [|discriminate].
    destruct (getitem (split COMMA line) (j + r.2)) as [num|] eqn:En; [|discriminate].
    exists (count ++ lit " " ++ Csv.fix_other_name_formatting_quirks r.1 ++ lit " ["
            ++ upper set_code ++ lit "] " ++ num).
    split.
    { apply (f_equal (fun x => match x with Ok st => st.1 | Raise _ => [] end)) in Hrun.
      symmetry. exact Hrun. }
    apply (getitem_last _ _ _ Hlast) in En.
    destruct (split_last line) as (f & Hf & Hend).
    rewrite Hf in En. injection En as ->.
    rewrite !app_assoc. apply endswith_app, Hend, Hline.
Qed.

(** * Further properties of the code *)

Example usage_length : length Script.usage = 1372%nat.
Proof. reflexivity. Qed.

(** ** Splitting, joining and stripping *)


Lemma split_nonempty sep s : split sep s <> [].
Proof.
  destruct s as [|c s]; simpl; [discriminate|].
  destruct (c =? sep); [discriminate|]. destruct (split sep s); discriminate.
Qed.

Lemma join_split sep : forall s, join [sep] (split sep s) = s.
Proof.
  induction s as [|c s IH]; simpl; [reflexivity|].
  destruct (N.eqb_spec c sep) as [->|Hc].
  - change (join [sep] ([] :: split sep s)) with
      (match split sep s with [] => [] | _ :: _ => [] ++ [sep] ++ join [sep] (split sep s) end).
    destruct (split sep s) eqn:E; [destruct (split_nonempty _ _ E)|].
    simpl. f_equal. exact IH.
  - destruct (split sep s) as [|f fs] eqn:E; [destruct (split_nonempty _ _ E)|].
    rewrite <- IH. destruct fs; reflexivity.
Qed.

Lemma split_length sep : forall s, length (split sep s) = S (count_char sep s).
Proof.
  unfold count_char. induction s as [|c s IH]; simpl; [reflexivity|].
  destruct (c =? sep); simpl.
  - f_equal. exact IH.
  - destruct (split sep s) as [|f fs] eqn:E; [destruct (split_nonempty _ _ E)|].
    exact IH.
Qed.





Lemma count_char_app c s t : count_char c (s ++ t) = (count_char c s + count_char c t)%nat.
Proof. unfold count_char. rewrite List.filter_app, length_app. reflexivity. Qed.




(** ** More on [normalize_name] *)

Lemma normalize_name_rejoined card (i k : nat) first last expected :
  card !! i = Some first ->
  startswith first [QUOTE] = true ->
  card !! (i + k)%nat = Some last ->
  endswith last [QUOTE] = true ->
  (forall j f, (j < k)%nat -> card !! (i + j)%nat = Some f ->
               endswith f [QUOTE] = false) ->
  (expected < length card)%nat ->
  Csv.normalize_name (Z.of_nat i) card expected
  = Ok (strip QUOTE (join [COMMA] (take (S k) (drop i card))), Z.of_nat k).
Proof.
  intros Hfirst Hstart Hlast Hend Hbefore He. unfold Csv.normalize_name.
  rewrite getitem_nat, Hfirst, bind_Ok, Hstart.
  destruct (Nat.ltb_spec expected (length card)) as [_|?]; [|lia].
  pose proof (lookup_lt_Some _ _ _ Hlast) as Hlt.
  rewrite (rejoin_joins card i k last Hlast Hend Hbefore k 0%nat)
    by (lia || (rewrite Nat.add_0_r; exact Hfirst)).
  rewrite bind_Ok. cbn [fst snd andb].
  rewrite (drop_S card first i Hfirst), Nat.add_0_r. reflexivity.
Qed.


(** X2.  A quoted name that starts with a comma is not repaired: its first
    field is the lone quote, which also ends in a quote, so the loop does
    not run and [normalize_name] returns the empty name with offset 0. *)
Theorem X2_normalize_name_leading_comma (pre post : list pystr) (n : pystr)
    (expected : nat) :
  (expected
   < length (pre ++ split COMMA ([QUOTE] ++ [COMMA] ++ n ++ [QUOTE]) ++ post))%nat ->
  Csv.normalize_name (Z.of_nat (length pre))
    (pre ++ split COMMA ([QUOTE] ++ [COMMA] ++ n ++ [QUOTE]) ++ post) expected
  = Ok ([], 0%Z).
Proof.
  intros He.
  assert (Hfirst : (pre ++ split COMMA ([QUOTE] ++ [COMMA] ++ n ++ [QUOTE]) ++ post)
                     !! length pre = Some [QUOTE]).
  { rewrite lookup_app_r by apply Nat.le_refl. rewrite Nat.sub_diag. reflexivity. }
  rewrite (normalize_name_rejoined _ (length pre) 0 [QUOTE] [QUOTE] expected);
    try (reflexivity || assumption).
  - rewrite (take_S_r _ 0 [QUOTE]); [reflexivity|].
    rewrite lookup_drop, Nat.add_0_r. exact Hfirst.
  - rewrite Nat.add_0_r. exact Hfirst.
  - intros j f Hj. lia.
Qed.

Lemma lstrip_head ch : forall s, startswith (lstrip ch s) [ch] = false.
Proof.
  induction s as [|c s IH]; simpl; [reflexivity|].
  destruct (N.eqb_spec c ch) as [->|Hc]; [exact IH|].
  simpl. destruct (N.eqb_spec ch c) as [->|_]; [contradiction|reflexivity].
Qed.

Lemma lstrip_endswith ch : forall s,
  endswith (lstrip ch s) [ch] = true -> endswith s [ch] = true.
Proof.
  induction s as [|c s IH]; simpl; [trivial|].
  destruct (c =? ch); [|trivial].
  intros H. apply (endswith_app [c]), IH, H.
Qed.

Lemma strip_no_outer_quote ch s :
  startswith (strip ch s) [ch] = false /\ endswith (strip ch s) [ch] = false.
Proof.
  unfold strip. split.
  - destruct (startswith (rev (lstrip ch (rev (lstrip ch s)))) [ch]) eqn:E;
      [|reflexivity].
    change (endswith (lstrip ch (rev (lstrip ch s))) [ch] = true) in E.
    apply lstrip_endswith in E. unfold endswith in E.
    rewrite rev_involutive in E. change (rev [ch]) with [ch] in E.
    rewrite lstrip_head in E. discriminate.
  - unfold endswith. rewrite rev_involutive. apply lstrip_head.
Qed.

Lemma rejoin_Ok card idx fuel : forall off cur pieces r,
  Csv.rejoin fuel card idx off cur pieces = Ok r ->
  (off <= r.2)%Z
  /\ ((r.2 = off /\ endswith cur [QUOTE] = true)
      \/ exists f, getitem card (idx + r.2) = Ok f /\ endswith f [QUOTE] = true).
Proof.
  induction fuel as [|fuel IH]; intros off cur pieces r; simpl.
  - destruct (endswith cur [QUOTE]) eqn:E; simpl; [|discriminate].
    intros [= <-]. simpl. split; [lia|]. left. split; reflexivity.
  - destruct (endswith cur [QUOTE]) eqn:E; simpl.
    + intros [= <-]. simpl. split; [lia|]. left. split; reflexivity.
    + destruct (getitem card (idx + (off + 1))) as [nxt|e] eqn:G; simpl;
        [|discriminate].
      intros H. apply IH in H as (Hle & [[Heq Hend]|Hex]).
      * split; [lia|]. right. exists nxt. rewrite Heq. split; assumption.
      * split; [lia|]. right. exact Hex.
Qed.

(** X3.  A quoted name that is never closed: when the name field starts
    with a quote, the record has more fields than the header, and no field
    from the name on ends in a quote, the loop runs past the last field and
    [normalize_name] raises [IndexError]. *)
Theorem X3_normalize_name_unterminated (card : list pystr) (i : nat)
    (first : pystr) (expected : nat) :
  card !! i = Some first ->
  startswith first [QUOTE] = true ->
  (expected < length card)%nat ->
  (forall j f, card !! (i + j)%nat = Some f -> endswith f [QUOTE] = false) ->
  Csv.normalize_name (Z.of_nat i) card expected = Raise IndexError.
Proof.
  intros Hfirst Hstart He Hnone.
  destruct (Csv.normalize_name (Z.of_nat i) card expected) as [r|e] eqn:E.
  - exfalso. unfold Csv.normalize_name in E.
    rewrite getitem_nat, Hfirst, bind_Ok, Hstart in E.
    destruct (Nat.ltb_spec expected (length card)) as [_|?]; [|lia].
    cbn [andb] in E.
    destruct (Csv.rejoin _ card (Z.of_nat i) 0 first [first]) as [q|e] eqn:R;
      [|discriminate].
    apply rejoin_Ok in R as (Hle & [[_ Hend]|(f & Hf & Hend)]).
    + rewrite (Hnone 0%nat first) in Hend; [discriminate|].
      rewrite Nat.add_0_r. exact Hfirst.
    + replace (Z.of_nat i + q.2)%Z with (Z.of_nat (i + Z.to_nat q.2)) in Hf by lia.
      rewrite getitem_nat in Hf.
      destruct (card !! (i + Z.to_nat q.2)%nat) as [g|] eqn:G; [|discriminate].
      injection Hf as ->. rewrite (Hnone _ _ G) in Hend. discriminate.
  - f_equal. apply (normalize_name_Raise _ _ _ _ E).
Qed.

(** X4.  What [normalize_name] returns when it returns: the offset is not
    negative and the field at the name's place plus the offset exists; when
    the name field starts with a quote and the record has more fields than
    the header, the name neither starts nor ends with a quote; otherwise
    the name is the field as it is and the offset is 0. *)
Theorem X4_normalize_name_result (idx_name : Z) (card : list pystr)
    (expected : nat) (first name : pystr) (name_offset : Z) :
  getitem card idx_name = Ok first ->
  Csv.normalize_name idx_name card expected = Ok (name, name_offset) ->
  (0 <= name_offset)%Z
  /\ (exists f, getitem card (idx_name + name_offset) = Ok f)
  /\ (startswith first [QUOTE] = true -> (expected < length card)%nat ->
      startswith name [QUOTE] = false /\ endswith name [QUOTE] = false)
  /\ (startswith first [QUOTE] = false \/ (length card <= expected)%nat ->
      name = first /\ name_offset = 0%Z).
Proof.
  intros Hfirst Hrun. unfold Csv.normalize_name in Hrun.
  rewrite Hfirst, bind_Ok in Hrun.
  destruct (startswith first [QUOTE]) eqn:Hs;
    destruct (Nat.ltb_spec expected (length card)) as [Hlt|Hge];
    cbn [andb] in Hrun.
  - destruct (Csv.rejoin _ card idx_name 0 first [first]) as [q|e] eqn:R;
      [|discriminate].
    rewrite bind_Ok in Hrun. injection Hrun as <- <-.
    apply rejoin_Ok in R as (Hle & Hcase).
    split; [exact Hle|]. split; [|split].
    + destruct Hcase as [[-> _]|(f & Hf & _)].
      * exists first. rewrite Z.add_0_r. exact Hfirst.
      * exists f. exact Hf.
    + intros _ _. apply strip_no_outer_quote.
    + intros [H|H]; [discriminate|lia].
  - injection Hrun as <- <-. split; [lia|]. split; [|split].
    + exists first. rewrite Z.add_0_r. exact Hfirst.
    + intros _ H. lia.
    + intros _. split; reflexivity.
  - injection Hrun as <- <-. split; [lia|]. split; [|split].
    + exists first. rewrite Z.add_0_r. exact Hfirst.
    + discriminate.
    + intros _. split; reflexivity.
  - injection Hrun as <- <-. split; [lia|]. split; [|split].
    + exists first. rewrite Z.add_0_r. exact Hfirst.
    + discriminate.
    + intros _. split; reflexivity.
Qed.

(** ** More on the two name normalizers and on [fix_collector_number] *)

Lemma re_sub_from_sublist m : forall s k, sublist (re_sub_from m k s) s.
Proof.
  induction s as [|c s IH]; intros k; simpl; [constructor|].
  destruct k as [|k]; [|apply sublist_cons, IH].
  destruct (m (c :: s)) as [[|n]|];
    [apply sublist_skip, IH | apply sublist_cons, IH | apply sublist_skip, IH].
Qed.

(** X5.  The two name normalizers only delete: the result is the name with
    some of its characters left out, in the same order, and so is never
    longer than the name. *)
Theorem X5_normalizers_only_delete (name : pystr) :
  sublist (Csv.fix_other_name_formatting_quirks name) name
  /\ sublist (Json.fix_name_formatting_quirks name) name
  /\ (length (Csv.fix_other_name_formatting_quirks name) <= length name)%nat
  /\ (length (Json.fix_name_formatting_quirks name) <= length name)%nat.
Proof.
  assert (Hc := re_sub_from_sublist
                  (any_of_these two_faced_card_re token_card_re_csv) name 0).
  assert (Hj := re_sub_from_sublist
                  (any_of_these two_faced_card_re token_card_re_json) name 0).
  repeat split; try assumption; apply sublist_length; assumption.
Qed.

Lemma token_json_head_space c s :
  hit token_card_re_json (c :: s) = true -> isspace c = true.
Proof.
  unfold hit, token_card_re_json.
  destruct (startswith (c :: s) (lit " Token")) eqn:E; [|discriminate].
  intros _. apply startswith_inv in E as [r E]. injection E as -> _. reflexivity.
Qed.

Lemma token_csv_head_space c s :
  hit token_card_re_csv (c :: s) = true -> isspace c = true.
Proof.
  unfold hit. destruct (token_card_re_csv (c :: s)) as [n|] eqn:E; [|discriminate].
  intros _. apply token_csv_inv in E as (a & s' & [= -> _] & Ha & _). exact Ha.
Qed.

Lemma nowhere_without_space (m : matcher) :
  m [] = None ->
  (forall c s, hit m (c :: s) = true -> isspace c = true) ->
  forall name, (forall c, c ∈ name -> isspace c = false) ->
  matches_somewhere m name = false.
Proof.
  intros Hnil Hm. induction name as [|c name IH]; intros Hname; simpl.
  - unfold hit. rewrite Hnil. reflexivity.
  - rewrite IH by (intros d Hd; apply Hname; right; exact Hd).
    rewrite orb_false_r. destruct (hit m (c :: name)) eqn:E; [|reflexivity].
    apply Hm in E. rewrite (Hname c) in E; [discriminate|left].
Qed.

(** X6.  Both patterns of each normalizer start with a white space: a name
    that holds no white space at all is returned as it is by both. *)
Theorem X6_no_white_space_no_change (name : pystr) :
  (forall c, c ∈ name -> isspace c = false) ->
  Csv.fix_other_name_formatting_quirks name = name
  /\ Json.fix_name_formatting_quirks name = name.
Proof.
  intros Hname.
  pose proof (nowhere_without_space two_faced_card_re eq_refl
                two_faced_head_space name Hname) as Htf.
  split; apply re_sub_nowhere; rewrite somewhere_any, Htf; simpl.
  - apply (nowhere_without_space token_card_re_csv eq_refl
             token_csv_head_space name Hname).
  - apply (nowhere_without_space token_card_re_json eq_refl
             token_json_head_space name Hname).
Qed.

Lemma somewhere_two_faced_app : forall a b,
  matches_somewhere two_faced_card_re a = true ->
  matches_somewhere two_faced_card_re (a ++ b) = true.
Proof.
  induction a as [|c a IH]; intros b; simpl.
  - discriminate.
  - intros H. apply orb_true_iff in H as [H|H].
    + apply (hit_two_faced_app (c :: a) b) in H. simpl in H. rewrite H. reflexivity.
    + rewrite (IH b H). apply orb_true_r.
Qed.

Lemma csv_fix_prefix : forall s,
  one_line s = true -> has_separator s = false ->
  exists r, s = Csv.fix_other_name_formatting_quirks s ++ r.
Proof.
  unfold Csv.fix_other_name_formatting_quirks, re_sub, has_separator.
  induction s as [|c s IH]; intros Hl Hs; [exists []; reflexivity|].
  simpl in Hs |- *. apply orb_false_iff in Hs as [Hh Hs].
  unfold hit in Hh. unfold any_of_these at 1.
  destruct (two_faced_card_re (c :: s)); [discriminate|].
  destruct (token_card_re_csv (c :: s)) as [n|] eqn:T.
  - apply token_csv_inv in T as (a & s' & [= -> ->] & _ & Hd & ->).
    exists (a :: 84 :: 111 :: 107 :: 101 :: 110 :: s').
    destruct s' as [|x [|]]; try discriminate; [reflexivity|].
    exfalso. do 6 (apply one_line_cons in Hl as [_ Hl]).
    apply one_line_cons in Hl as [Hx _]. simpl in Hd.
    apply N.eqb_eq in Hd. contradiction.
  - apply one_line_cons in Hl as [_ Hl].
    destruct (IH Hl Hs) as [r Hr]. exists r. simpl. f_equal. exact Hr.
Qed.

(** X7.  On a name without a line feed the tabular normalizer leaves no
    face separator behind. *)
Theorem X7_csv_result_has_no_separator (name : pystr) :
  one_line name = true ->
  has_separator (Csv.fix_other_name_formatting_quirks name) = false.
Proof.
  intros Hl. destruct (has_separator name) eqn:Hs.
  - rewrite (csv_first_face name Hl Hs). apply first_face_no_separator.
  - destruct (csv_fix_prefix name Hl Hs) as [r Hr].
    destruct (has_separator (Csv.fix_other_name_formatting_quirks name)) eqn:E;
      [|reflexivity].
    apply (somewhere_two_faced_app _ r) in E. rewrite <- Hr in E.
    unfold has_separator in Hs. congruence.
Qed.

Lemma fix_collector_number_filter : forall s,
  Json.fix_collector_number s = List.filter (fun c => negb (artifact c)) s.
Proof.
  unfold Json.fix_collector_number, Json.remove_these, remove_char, artifact.
  induction s as [|c s IH]; [reflexivity|].
  simpl in IH |- *.
  destruct (c =? 226); simpl; [exact IH|].
  destruct (c =? 732); simpl; [exact IH|].
  destruct (c =? 8230); simpl; [exact IH|].
  f_equal. exact IH.
Qed.

(** X8.  [fix_collector_number] removes every occurrence of its three
    artifact characters and nothing else: the result is the number without
    them, none of them is left, a second pass changes nothing, and a
    number that holds none of them is returned as it is. *)
Theorem X8_fix_collector_number (collector_number : pystr) :
  Json.fix_collector_number collector_number
  = List.filter (fun c => negb (artifact c)) collector_number
  /\ (forall c, c ∈ Json.fix_collector_number collector_number ->
        artifact c = false /\ c ∈ collector_number)
  /\ Json.fix_collector_number (Json.fix_collector_number collector_number)
     = Json.fix_collector_number collector_number
  /\ ((forall c, c ∈ collector_number -> artifact c = false) ->
      Json.fix_collector_number collector_number = collector_number).
Proof.
  rewrite !fix_collector_number_filter. split; [reflexivity|]. split; [|split].
  - intros c Hc. apply list_elem_of_In, List.filter_In in Hc as [Hin Hc].
    split; [apply negb_true_iff, Hc | apply list_elem_of_In, Hin].
  - induction collector_number as [|c s IH]; [reflexivity|]. cbn [List.filter].
    destruct (negb (artifact c)) eqn:E; [|exact IH].
    cbn [List.filter]. rewrite E. f_equal. exact IH.
  - intros H. induction collector_number as [|c s IH]; [reflexivity|].
    cbn [List.filter]. rewrite (H c) by left. cbn [negb]. f_equal.
    apply IH. intros d Hd. apply H. right. exact Hd.
Qed.

(** ** One line for every record *)

Lemma for_each_counts {X} (body : list pystr * list pystr -> X -> res _) :
  (forall st x st', body st x = Ok st' ->
     (length st'.1 + length st'.2 = S (length st.1 + length st.2))%nat) ->
  forall xs st st', for_each body xs st = Ok st' ->
    (length st'.1 + length st'.2 = length xs + (length st.1 + length st.2))%nat.
Proof.
  intros Hb. induction xs as [|x xs IH]; intros st st' Hrun; simpl in Hrun.
  - injection Hrun as <-. reflexivity.
  - destruct (body st x) as [st1|e] eqn:E; simpl in Hrun; [|discriminate].
    rewrite (IH st1 st' Hrun), (Hb st x st1 E). simpl. lia.
Qed.

Lemma csv_card_body_counts `{CaseTable} names idx_count idx_name st card st' :
  Csv.card_body names idx_count idx_name st card = Ok st' ->
  (length st'.1 + length st'.2 = S (length st.1 + length st.2))%nat.
Proof.
  destruct st as [nl ls]. unfold Csv.card_body. intros Hrun.
  repeat step_bind Hrun.
  destruct (contains basic_lands _).
  - step_bind Hrun. injection Hrun as <-. cbn [fst snd]. rewrite length_app. simpl. lia.
  - injection Hrun as <-. cbn [fst snd]. rewrite length_app. simpl. lia.
Qed.

Lemma json_card_body_counts `{CaseTable} st card st' :
  Json.card_body st card = Ok st' ->
  (length st'.1 + length st'.2 = S (length st.1 + length st.2))%nat.
Proof.
  destruct st as [fc ls]. unfold Json.card_body. intros Hrun.
  repeat step_bind Hrun.
  destruct (match _ with Json.JStr s => _ | _ => false end).
  - injection Hrun as <-. cbn [fst snd]. rewrite length_app. simpl. lia.
  - repeat step_bind Hrun. injection Hrun as <-. cbn [fst snd].
    rewrite length_app. simpl. lia.
Qed.

(** X9.  Every record of a tabular input gives exactly one line: after a
    run that succeeds, the main block and the land block together hold as
    many lines as the file has lines after the header. *)
Theorem X9_csv_one_line_per_record `{CaseTable} (text : pystr)
    (new_lines lands : list pystr) :
  Csv.main_lines text = Ok (new_lines, lands) ->
  (length new_lines + length lands = length (readlines text) - 1)%nat.
Proof.
  unfold Csv.main_lines. intros Hrun. repeat step_bind Hrun.
  apply (for_each_counts _ (csv_card_body_counts _ _ _)) in Hrun.
  cbn [fst snd length] in Hrun. rewrite Hrun. unfold tail_slice.
  rewrite length_drop, length_map. lia.
Qed.

(** X10.  Every record of a selected section gives exactly one line: after
    a run of the structured pipeline that succeeds, on a document whose
    sections map to lists, the two blocks together hold as many lines as
    the selected sections hold records. *)
Theorem X10_json_one_line_per_record `{CaseTable} (deck_list : Json.json)
    (include : list pystr) (sections : list (pystr * Json.json))
    (formatted_cards lands : list pystr) :
  Json.subscript deck_list (lit "entries") = Ok (Json.JDict sections) ->
  Forall (fun kv => exists l, kv.2 = Json.JList l) sections ->
  Json.txt_lines deck_list include = Ok (formatted_cards, lands) ->
  (length formatted_cards + length lands
   = length (selected_cards include sections))%nat.
Proof.
  intros He Hs Hrun. unfold Json.txt_lines in Hrun.
  rewrite He, bind_Ok in Hrun. simpl in Hrun.
  rewrite (sections_as_selected_cards include sections Hs) in Hrun.
  apply (for_each_counts _ json_card_body_counts) in Hrun.
  cbn [fst snd length] in Hrun. lia.
Qed.

(** ** Errors: which ones, and what they leave behind *)

Lemma for_each_Raise {S X} (body : S -> X -> res S) (P : exn -> Prop) :
  (forall st x e, body st x = Raise e -> P e) ->
  forall xs st e, for_each body xs st = Raise e -> P e.
Proof.
  intros Hb. induction xs as [|x xs IH]; intros st e Hrun; simpl in Hrun.
  - discriminate.
  - destruct (body st x) as [st1|e1] eqn:E; simpl in Hrun.
    + apply (IH st1 e Hrun).
    + injection Hrun as <-. apply (Hb st x e1 E).
Qed.

Ltac step_raise H :=
  match type of H with
  | (?m ≫= _) = Raise _ =>
      let v := fresh "v" in let E := fresh "E" in
      destruct m as [v|?] eqn:E; [rewrite bind_Ok in H | injection H as <-]
  end.

Lemma csv_card_body_Raise `{CaseTable} names idx_count idx_name st card e :
  Csv.card_body names idx_count idx_name st card = Raise e ->
  e = IndexError \/ e = ValueError.
Proof.
  destruct st as [nl ls]. unfold Csv.card_body. intros Hrun.
  step_raise Hrun; [|left; apply (getitem_Raise _ _ _ E)].
  step_raise Hrun; [|left; apply (normalize_name_Raise _ _ _ _ E0)].
  step_raise Hrun; [|right; apply (index_Raise _ _ _ E1)].
  step_raise Hrun; [|right; apply (index_Raise _ _ _ E2)].
  step_raise Hrun; [|left; apply (getitem_Raise _ _ _ E3)].
  step_raise Hrun; [|left; apply (getitem_Raise _ _ _ E4)].
  destruct (contains basic_lands _); [|discriminate].
  step_raise Hrun; [discriminate|left; apply (getitem_Raise _ _ _ E5)].
Qed.

Lemma main_lines_Raise `{CaseTable} text e :
  Csv.main_lines text = Raise e -> e = IndexError \/ e = ValueError.
Proof.
  unfold Csv.main_lines. intros Hrun.
  step_raise Hrun; [|left; apply (getitem_Raise _ _ _ E)].
  step_raise Hrun; [|right; apply (index_Raise _ _ _ E0)].
  step_raise Hrun; [|right; apply (index_Raise _ _ _ E1)].
  revert Hrun.
  apply (for_each_Raise _ (fun e => e = IndexError \/ e = ValueError)).
  intros st x e'. apply csv_card_body_Raise.
Qed.

Lemma csv_main_cases `{CaseTable} src_csv dest w :
  (files w !! src_csv = None
   /\ Csv.main src_csv dest w = (Raise FileNotFoundError, w))
  \/ (exists text e, files w !! src_csv = Some text
        /\ Csv.main_lines text = Raise e
        /\ Csv.main src_csv dest w = (Raise e, w))
  \/ (exists text new_lines lands, files w !! src_csv = Some text
        /\ Csv.main_lines text = Ok (new_lines, lands)
        /\ Csv.main src_csv dest w
           = (Ok tt,
              if str_truthy dest
              then World (<[dest := Csv.formatted_card_content new_lines lands]> (files w))
                     (events w ++ [Write dest (Csv.formatted_card_content new_lines lands)])
              else World (files w)
                     (events w ++ [Print (Csv.formatted_card_content new_lines lands)]))).
Proof.
  unfold Csv.main, mbind, io_bind, read_file, lift.
  destruct (files w !! src_csv) as [text|]; [|left; split; reflexivity].
  right. destruct (Csv.main_lines text) as [[nl ls]|e] eqn:E.
  - right. exists text, nl, ls. split; [reflexivity|]. split; [exact E|].
    cbn [fst snd]. destruct (str_truthy dest); reflexivity.
  - left. exists text, e. split; [reflexivity|]. split; [exact E|reflexivity].
Qed.


Lemma csv_main_frame `{CaseTable} src_csv dest w p :
  str_truthy dest = false \/ p <> dest ->
  files (Csv.main src_csv dest w).2 !! p = files w !! p.
Proof.
  intros Hp.
  destruct (csv_main_cases src_csv dest w)
    as [[_ Hm]|[(text & e' & _ & _ & Hm)|(text & nl & ls & _ & _ & Hm)]];
    rewrite Hm; try reflexivity.
  cbn [snd]. destruct (str_truthy dest); [|reflexivity].
  destruct Hp as [Hp|Hp]; [discriminate|].
  cbn [files]. apply lookup_insert_ne. congruence.
Qed.








Lemma json_cases `{CaseTable} deck_list include out w :
  (exists e, Json.txt_lines deck_list include = Raise e
     /\ Json.txt_of_deck_list deck_list include out w = (Raise e, w))
  \/ (exists formatted_cards lands,
        Json.txt_lines deck_list include = Ok (formatted_cards, lands)
        /\ Json.txt_of_deck_list deck_list include out w
           = (Ok tt,
              if Json.out_truthy out
              then World (<[default [] out := join [NL] formatted_cards]> (files w))
                     (events w ++ [Write (default [] out) (join [NL] formatted_cards);
                                   Print (Json.land_printout lands)])
              else World (files w)
                     (events w ++ [Print (join [NL] formatted_cards);
                                   Print (Json.land_printout lands)]))).
Proof.
  unfold Json.txt_of_deck_list, mbind, io_bind, lift.
  destruct (Json.txt_lines deck_list include) as [[fc ls]|e] eqn:E.
  - right. exists fc, ls. split; [reflexivity|]. cbn [fst snd].
    destruct (Json.out_truthy out); unfold write_file, print; cbn [files events];
      rewrite <- app_assoc; reflexivity.
  - left. exists e. split; reflexivity.
Qed.


(** X13.  Neither pipeline touches a file other than its destination: the
    file at any other path, the source included, reads the same after the
    run as before; without a destination no file changes at all; and after
    a run that succeeds the destination holds exactly the text written,
    the whole text for the tabular pipeline and the main lines for the
    structured one. *)
Theorem X13_only_the_destination_changes `{CaseTable}
    (src_csv dest : pystr) (deck_list : Json.json) (include : list pystr)
    (out : option pystr) (w : world) (p : pystr) :
  (str_truthy dest = false \/ p <> dest ->
   files (Csv.main src_csv dest w).2 !! p = files w !! p)
  /\ (Json.out_truthy out = false \/ out <> Some p ->
      files (Json.txt_of_deck_list deck_list include out w).2 !! p = files w !! p)
  /\ (forall text new_lines lands,
        files w !! src_csv = Some text ->
        Csv.main_lines text = Ok (new_lines, lands) ->
        str_truthy dest = true ->
        files (Csv.main src_csv dest w).2 !! dest
        = Some (join [NL] new_lines ++ banner ++ join [NL] lands))
  /\ (forall formatted_cards lands,
        Json.txt_lines deck_list include = Ok (formatted_cards, lands) ->
        Json.out_truthy out = true ->
        files (Json.txt_of_deck_list deck_list include out w).2 !! default [] out
        = Some (join [NL] formatted_cards)).
Proof.
  split; [|split; [|split]].
  - apply csv_main_frame.
  - intros Hp.
    destruct (json_cases deck_list include out w) as [(e' & _ & Hm)|(fc & ls & _ & Hm)];
      rewrite Hm; try reflexivity.
    cbn [snd]. destruct (Json.out_truthy out) eqn:Ho; [|reflexivity].
    destruct Hp as [Hp|Hp]; [discriminate|].
    cbn [files]. apply lookup_insert_ne.
    destruct out as [q|]; [|discriminate]. simpl. congruence.
  - intros text nl ls Hf Hl Hd.
    destruct (csv_main_cases src_csv dest w)
      as [[Hn _]|[(text' & e' & Hf' & Hl' & _)|(text' & nl' & ls' & Hf' & Hl' & Hm)]];
      try congruence.
    rewrite Hm, Hd. cbn [snd files]. rewrite lookup_insert_eq.
    assert (text' = text) as -> by congruence.
    rewrite Hl in Hl'. injection Hl' as <- <-. reflexivity.
  - intros fc ls Hl Ho.
    destruct (json_cases deck_list include out w) as [(e' & Hl' & _)|(fc' & ls' & Hl' & Hm)];
      try congruence.
    rewrite Hm, Ho. cbn [snd files]. rewrite lookup_insert_eq.
    rewrite Hl in Hl'. injection Hl' as <- <-. reflexivity.
Qed.

(** ** Edge cases of the tabular pipeline *)

Lemma index_found l x : contains l x = true -> exists i, index l x = Ok i.
Proof.
  unfold contains. induction l as [|y l IH]; simpl; [discriminate|].
  intros Hx. unfold pystr_eqb at 1.
  destruct (bool_decide (y = x)) eqn:E; [eexists; reflexivity|].
  apply orb_true_iff in Hx as [Hx|Hx].
  - unfold pystr_eqb in Hx. apply bool_decide_eq_true_1 in Hx.
    apply bool_decide_eq_false_1 in E. congruence.
  - destruct (IH Hx) as [i Hi]. rewrite Hi. eexists. reflexivity.
Qed.

Lemma index_Ok l x i :
  index l x = Ok i -> (0 <= i)%Z /\ l !! Z.to_nat i = Some x.
Proof.
  revert i. induction l as [|y l IH]; intros i; simpl; [discriminate|].
  unfold pystr_eqb. destruct (bool_decide (y = x)) eqn:E.
  - intros [= <-]. apply bool_decide_eq_true_1 in E. subst y. split; [lia|reflexivity].
  - destruct (index l x) as [j|] eqn:Ej; simpl; [|discriminate].
    intros [= <-]. destruct (IH j eq_refl) as [Hj Hl]. split; [lia|].
    replace (Z.to_nat (1 + j)) with (S (Z.to_nat j)) by lia. exact Hl.
Qed.

(** X14.  An export that holds only its header line, with the columns
    [count] and [name] in it, is no error: there is no record to look a
    column up for, both blocks are empty, and the text emitted is the
    banner alone. *)
Theorem X14_csv_header_only `{CaseTable} (src_csv dest text header_line : pystr)
    (w : world) :
  files w !! src_csv = Some text ->
  readlines text = [header_line] ->
  contains (split COMMA header_line) (lit "count") = true ->
  contains (split COMMA header_line) (lit "name") = true ->
  Csv.main_lines text = Ok ([], [])
  /\ (Csv.main src_csv dest w).1 = Ok tt
  /\ events (Csv.main src_csv dest w).2 = events w ++ [emit dest banner].
Proof.
  intros Hf Hlines Hc Hn.
  assert (Hrun : Csv.main_lines text = Ok ([], [])).
  { unfold Csv.main_lines. rewrite Hlines. cbn [List.map].
    change (getitem [split COMMA header_line] 0)
      with (Ok (A:=list pystr) (split COMMA header_line)).
    rewrite bind_Ok.
    destruct (index_found _ _ Hc) as [i ->]. rewrite bind_Ok.
    destruct (index_found _ _ Hn) as [j ->]. rewrite bind_Ok. reflexivity. }
  split; [exact Hrun|].
  destruct (csv_main_events src_csv dest w text [] [] Hf Hrun) as [Hok Hev].
  split; [exact Hok|]. rewrite Hev. unfold Csv.formatted_card_content.
  cbn [join]. rewrite app_nil_r. reflexivity.
Qed.

Lemma split_no_sep sep : forall s, sep ∉ s -> split sep s = [s].
Proof.
  induction s as [|c s IH]; intros Hs; simpl; [reflexivity|].
  destruct (N.eqb_spec c sep) as [->|_]; [destruct Hs; left|].
  rewrite IH; [reflexivity|]. intros Hin. apply Hs. right. exact Hin.
Qed.

Lemma for_each_fails {S X} (body : S -> X -> res S) (x : X) :
  (forall st, exists e, body st x = Raise e) ->
  forall xs st, x ∈ xs -> exists e, for_each body xs st = Raise e.
Proof.
  intros Hx. induction xs as [|y xs IH]; intros st Hin.
  - apply elem_of_nil in Hin. contradiction.
  - simpl. apply elem_of_cons in Hin as [<-|Hin].
    + destruct (Hx st) as [e ->]. exists e. reflexivity.
    + destruct (body st y) as [st1|e]; simpl; [apply IH, Hin|exists e; reflexivity].
Qed.

(** X15.  A record line without a comma, such as a blank line at the end
    of the file, makes the run fail: it has one field only, and the columns
    [count] and [name] cannot both be its first.  The run raises
    [IndexError] or [ValueError] and nothing is emitted. *)
Theorem X15_csv_record_without_comma `{CaseTable}
    (src_csv dest text header_line record_line : pystr)
    (record_lines : list pystr) (w : world) :
  files w !! src_csv = Some text ->
  readlines text = header_line :: record_lines ->
  record_line ∈ record_lines ->
  COMMA ∉ record_line ->
  exists e, (e = IndexError \/ e = ValueError)
            /\ Csv.main_lines text = Raise e
            /\ Csv.main src_csv dest w = (Raise e, w).
Proof.
  intros Hf Hlines Hin Hcomma.
  assert (exists e, Csv.main_lines text = Raise e) as [e He].
  { unfold Csv.main_lines. rewrite Hlines. cbn [List.map].
    change (getitem (split COMMA header_line :: _) 0)
      with (Ok (A:=list pystr) (split COMMA header_line)).
    rewrite bind_Ok. set (names := split COMMA header_line).
    destruct (index names (lit "count")) as [ic|e] eqn:Eic;
      [rewrite bind_Ok|exists e; reflexivity].
    destruct (index names (lit "name")) as [iname|e] eqn:Ein;
      [rewrite bind_Ok|exists e; reflexivity].
    apply (for_each_fails _ (split COMMA record_line)).
    - intros [nl ls]. rewrite (split_no_sep _ _ Hcomma). unfold Csv.card_body.
      destruct (index_Ok _ _ _ Eic) as [Hic Lc].
      destruct (index_Ok _ _ _ Ein) as [Hiname Ln].
      assert (ic <> iname).
      { intros ->. rewrite Lc in Ln. discriminate Ln. }
      destruct (getitem [record_line] ic) as [count|e] eqn:Gc;
        [rewrite bind_Ok|exists e; reflexivity].
      apply getitem_Ok_lt in Gc. simpl in Gc.
      assert (iname <> 0)%Z by lia.
      unfold Csv.normalize_name.
      destruct (getitem [record_line] iname) as [nm|e] eqn:Gn;
        [|exists e; reflexivity].
      apply getitem_Ok_lt in Gn. simpl in Gn. lia.
    - unfold tail_slice. simpl. rewrite drop_0.
      apply list_elem_of_fmap. exists record_line. split; [reflexivity|exact Hin]. }
  exists e. split; [apply (main_lines_Raise text e He)|].
  split; [exact He|]. apply (csv_main_raise _ _ _ text _ Hf He).
Qed.

Lemma getitem_minus_one {A} (l : list A) (x : A) :
  last l = Some x -> getitem l (-1) = Ok x.
Proof.
  intros Hl. rewrite last_lookup in Hl. unfold getitem.
  destruct l as [|a l]; [discriminate|]. cbn [length] in *.
  change (-1 <? 0)%Z with true. cbv iota.
  replace (Z.of_nat (S (length l)) + -1)%Z with (Z.of_nat (length l)) by lia.
  destruct (Z.leb_spec 0 (Z.of_nat (length l))); [|lia].
  destruct (Z.ltb_spec (Z.of_nat (length l)) (Z.of_nat (S (length l)))); [|lia].
  rewrite Nat2Z.id. simpl in Hl |- *. rewrite Hl. reflexivity.
Qed.

(** X16.  The label of a land line is the field just before the set code;
    when [set_code] is the first column and the name was not split, that
    index is -1 and the label is the last field of the record, not an
    error. *)
Theorem X16_csv_land_label_wraps `{CaseTable}
    (csv_column_names card : list pystr) (idx_count idx_name i_num : Z)
    (count raw_name set_code num last_field : pystr)
    (new_lines lands : list pystr) :
  getitem card idx_count = Ok count ->
  Csv.normalize_name idx_name card (length csv_column_names) = Ok (raw_name, 0%Z) ->
  index csv_column_names (lit "set_code") = Ok 0%Z ->
  index csv_column_names (lit "collector_number") = Ok i_num ->
  getitem card 0 = Ok set_code ->
  getitem card i_num = Ok num ->
  last card = Some last_field ->
  contains basic_lands (Csv.fix_other_name_formatting_quirks raw_name) = true ->
  Csv.card_body csv_column_names idx_count idx_name (new_lines, lands) card
  = Ok (new_lines,
        lands ++ [Csv.fix_other_name_formatting_quirks raw_name ++ lit " ("
                  ++ num ++ lit ") - " ++ last_field ++ lit " ("
                  ++ upper set_code ++ lit ")"]).
Proof.
  intros Hc Hn Hs Hi Hset Hnum Hlast Hland.
  unfold Csv.card_body, mbind, res_bind.
  rewrite Hc, Hn. cbn [fst snd]. rewrite Hs, Hi, !Z.add_0_r, Hset, Hnum, Hland.
  change (0 - 1)%Z with (-1)%Z. rewrite (getitem_minus_one _ _ Hlast). reflexivity.
Qed.

(** ** The include-set, the sections and the records *)

Lemma for_each_ext {S X} (f g : S -> X -> res S) :
  (forall st x, f st x = g st x) ->
  forall xs st, for_each f xs st = for_each g xs st.
Proof.
  intros Hfg. induction xs as [|x xs IH]; intros st; simpl; [reflexivity|].
  rewrite Hfg. destruct (g st x); simpl; [apply IH|reflexivity].
Qed.

Lemma txt_lines_by_selection `{CaseTable} deck_list include1 include2 :
  (forall sec,
     contains include1 sec || contains include1 (lit "all")
     = contains include2 sec || contains include2 (lit "all")) ->
  Json.txt_lines deck_list include1 = Json.txt_lines deck_list include2.
Proof.
  intros Hsel. unfold Json.txt_lines.
  destruct (Json.subscript deck_list (lit "entries")) as [entries|]; [|reflexivity].
  rewrite !bind_Ok. destruct (Json.items entries) as [sections|]; [|reflexivity].
  rewrite !bind_Ok. apply for_each_ext. intros st [sec cards].
  unfold Json.section_body. rewrite Hsel. reflexivity.
Qed.

(** X17.  The include list is used as a set, and "all" overrides it: two
    lists with the same members give the same lines, whatever their order
    and repetitions, and a list that holds "all" gives the lines of the
    list that holds "all" alone. *)
Theorem X17_include_is_a_set `{CaseTable} (deck_list : Json.json)
    (include1 include2 : list pystr) :
  ((forall x, contains include1 x = contains include2 x) ->
   Json.txt_lines deck_list include1 = Json.txt_lines deck_list include2)
  /\ (contains include1 (lit "all") = true ->
      Json.txt_lines deck_list include1 = Json.txt_lines deck_list [lit "all"]).
Proof.
  split.
  - intros Hsame. apply txt_lines_by_selection. intros sec. rewrite !Hsame. reflexivity.
  - intros Hall. apply txt_lines_by_selection. intros sec. rewrite Hall.
    rewrite orb_true_r. symmetry. apply orb_true_r.
Qed.

Lemma section_body_unselected `{CaseTable} include st sec cards :
  contains include sec || contains include (lit "all") = false ->
  Json.section_body include st (sec, cards) = Ok st.
Proof. intros E. unfold Json.section_body. cbv zeta. rewrite E. reflexivity. Qed.


Lemma sections_filtered `{CaseTable} include : forall sections st,
  for_each (Json.section_body include) sections st
  = for_each (Json.section_body include)
      (List.filter (selected include) sections) st.
Proof.
  induction sections as [|[sec cards] sections IH]; intros st; [reflexivity|].
  cbn [List.filter]. unfold selected at 1. cbn [fst].
  destruct (contains include sec || contains include (lit "all")) eqn:E.
  - cbn [for_each].
    destruct (Json.section_body include st (sec, cards)); simpl; [apply IH|reflexivity].
  - cbn [for_each]. rewrite (section_body_unselected _ _ _ _ E), bind_Ok. apply IH.
Qed.

(** X18.  A section that the include-set does not select is not looked
    into: the lines of a document are those of the document with its
    unselected sections taken out, whatever those sections hold; when no
    section is selected the run succeeds with both blocks empty. *)
Theorem X18_unselected_sections_ignored `{CaseTable}
    (deck_list pruned : Json.json) (include : list pystr)
    (sections : list (pystr * Json.json)) :
  Json.subscript deck_list (lit "entries") = Ok (Json.JDict sections) ->
  Json.subscript pruned (lit "entries")
  = Ok (Json.JDict (List.filter (selected include) sections)) ->
  Json.txt_lines deck_list include = Json.txt_lines pruned include
  /\ (List.filter (selected include) sections = [] ->
      Json.txt_lines deck_list include = Ok ([], [])).
Proof.
  intros Hd Hp.
  assert (Hrun : Json.txt_lines deck_list include
                 = for_each (Json.section_body include)
                     (List.filter (selected include) sections) ([], [])).
  { unfold Json.txt_lines. rewrite Hd, bind_Ok. simpl. apply sections_filtered. }
  split.
  - rewrite Hrun. unfold Json.txt_lines. rewrite Hp, bind_Ok. reflexivity.
  - intros Hnone. rewrite Hrun, Hnone. reflexivity.
Qed.


(** ** The command line of the tabular script *)


(** ** Set codes *)

Lemma upper_char_ascii `{CaseTable} c :
  (c <? 128) = true ->
  exists d, upper_char c = [d] /\ (d <? 128) = true
            /\ ((97 <=? d) && (d <=? 122)) = false
            /\ upper_char d = [d].
Proof.
  intros Hc. unfold upper_char. rewrite Hc.
  destruct ((97 <=? c) && (c <=? 122)) eqn:E.
  - apply andb_true_iff in E as [E1 E2].
    apply N.leb_le in E1. apply N.leb_le in E2.
    exists (c - 32). split; [reflexivity|].
    assert (Hlt : (c - 32 <? 128) = true) by (apply N.ltb_lt; lia).
    assert (Hlow : ((97 <=? c - 32) && (c - 32 <=? 122)) = false).
    { apply andb_false_iff. left. apply N.leb_gt. lia. }
    rewrite Hlt, Hlow. repeat split.
  - exists c. rewrite Hc, E. repeat split.
Qed.

(** X21.  [fix_set_code] only upper-cases; no table of corrected codes is
    consulted.  On a set code made of ASCII characters the result has the
    same length, holds no lower-case letter, does not depend on the case
    table of the interpreter, and a second pass changes nothing. *)
Theorem X21_fix_set_code_ascii (T1 T2 : CaseTable) (set_code : pystr) :
  (forall c, c ∈ set_code -> (c <? 128) = true) ->
  length (@Json.fix_set_code T1 set_code) = length set_code
  /\ (forall c, c ∈ @Json.fix_set_code T1 set_code ->
        ((97 <=? c) && (c <=? 122)) = false)
  /\ @Json.fix_set_code T1 set_code = @Json.fix_set_code T2 set_code
  /\ @Json.fix_set_code T1 (@Json.fix_set_code T1 set_code)
     = @Json.fix_set_code T1 set_code.
Proof.
  unfold Json.fix_set_code, upper.
  induction set_code as [|c s IH]; intros Hs.
  - repeat split. intros c Hc. apply elem_of_nil in Hc. contradiction.
  - assert (Hc : (c <? 128) = true) by (apply Hs; left).
    assert (Hs' : forall d, d ∈ s -> (d <? 128) = true)
      by (intros d Hd; apply Hs; right; exact Hd).
    destruct (IH Hs') as (Hlen & Hlow & Hsame & Hidem).
    destruct (@upper_char_ascii T1 c Hc) as (d & Hd & Hd128 & Hdlow & Hdd).
    assert (Hd2 : @upper_char T2 c = [d]).
    { revert Hd. unfold upper_char. rewrite Hc. trivial. }
    cbn [List.flat_map]. rewrite Hd, Hd2. cbn [app List.flat_map].
    rewrite Hdd. cbn [app length].
    split; [f_equal; exact Hlen|]. split; [|split].
    + intros x Hx. apply elem_of_cons in Hx as [->|Hx]; [exact Hdlow|apply Hlow, Hx].
    + f_equal. exact Hsame.
    + f_equal. exact Hidem.
Qed.

(** ** Nothing is lost, and records do not interfere *)

Lemma concat_readlines : forall text, concat (readlines text) = text.
Proof.
  induction text as [|c text IH]; [reflexivity|]. simpl.
  destruct (c =? NL) eqn:E.
  - apply N.eqb_eq in E. subst c. simpl. f_equal. exact IH.
  - destruct (readlines text) as [|l ls].
    + simpl in *. subst text. reflexivity.
    + simpl in *. f_equal. exact IH.
Qed.

(** X24.  Reading the table loses nothing: joining the fields of every
    line with commas and putting the lines one after the other gives back
    the text of the file, line feeds included. *)
Theorem X24_table_round_trip (text : pystr) :
  concat (List.map (join [COMMA]) (List.map (split COMMA) (readlines text)))
  = text.
Proof.
  rewrite List.map_map.
  rewrite (List.map_ext _ (fun l => l) (join_split COMMA)), List.map_id.
  apply concat_readlines.
Qed.

Lemma readlines_app : forall a b,
  a = [] \/ endswith a [NL] = true ->
  readlines (a ++ b) = readlines a ++ readlines b.
Proof.
  induction a as [|c a IH]; intros b Ha; [reflexivity|].
  destruct Ha as [Ha|Ha]; [discriminate|].
  change ((c :: a) ++ b) with (c :: (a ++ b)). cbn [readlines].
  apply endswith_NL_cons in Ha.
  destruct (N.eqb_spec c NL) as [->|Hc].
  - destruct a as [|d a]; [reflexivity|].
    destruct Ha as [[Ha _]|Ha]; [discriminate|].
    rewrite (IH b) by (right; exact Ha). reflexivity.
  - destruct Ha as [[_ Ha]|Ha]; [contradiction|].
    rewrite (IH b) by (right; exact Ha).
    destruct (readlines a) as [|l ls] eqn:E; [|reflexivity].
    destruct a as [|d a]; [discriminate Ha|].
    simpl in E. destruct (d =? NL); [discriminate|].
    destruct (readlines a); discriminate.
Qed.

Lemma csv_card_body_shift `{CaseTable} names idx_count idx_name nl ls card :
  Csv.card_body names idx_count idx_name (nl, ls) card
  = match Csv.card_body names idx_count idx_name ([], []) card with
    | Ok st => Ok (nl ++ st.1, ls ++ st.2)
    | Raise e => Raise e
    end.
Proof.
  unfold Csv.card_body, mbind, res_bind.
  destruct (getitem card idx_count); [|reflexivity].
  destruct (Csv.normalize_name idx_name card (length names)) as [r|]; [|reflexivity].
  destruct (index names (lit "set_code")) as [i|]; [|reflexivity].
  destruct (index names (lit "collector_number")) as [j|]; [|reflexivity].
  destruct (getitem card (i + r.2)); [|reflexivity].
  destruct (getitem card (j + r.2)); [|reflexivity].
  destruct (contains basic_lands _).
  - destruct (getitem card (i + r.2 - 1)); [|reflexivity].
    cbn [fst snd]. rewrite app_nil_r. reflexivity.
  - cbn [fst snd]. rewrite app_nil_r. reflexivity.
Qed.

Lemma json_card_body_shift `{CaseTable} fc ls card :
  Json.card_body (fc, ls) card
  = match Json.card_body ([], []) card with
    | Ok st => Ok (fc ++ st.1, ls ++ st.2)
    | Raise e => Raise e
    end.
Proof.
  unfold Json.card_body, mbind, res_bind.
  destruct (Json.subscript card (lit "count")) as [count|]; [|reflexivity].
  destruct (Json.subscript card (lit "card_digest")) as [dg|]; [|reflexivity].
  destruct (Json.subscript dg (lit "name")) as [rn|]; [|reflexivity].
  destruct (Json.re_subject rn); [|reflexivity].
  destruct (Json.subscript dg (lit "set")) as [rs|]; [|reflexivity].
  destruct (Json.str_receiver rs); [|reflexivity].
  destruct (Json.subscript dg (lit "collector_number")) as [rc|]; [|reflexivity].
  destruct (Json.str_receiver rc); [|reflexivity].
  destruct (match rn with Json.JStr s => _ | _ => false end).
  - cbn [fst snd]. rewrite app_nil_r. reflexivity.
  - destruct (Json.percent_d count); [|reflexivity].
    destruct (Json.subscript card (lit "printing_specified")); [|reflexivity].
    cbn [fst snd]. rewrite app_nil_r. reflexivity.
Qed.

Lemma for_each_shift {X}
    (body : list pystr * list pystr -> X -> res (list pystr * list pystr)) :
  (forall a b x,
     body (a, b) x = match body ([], []) x with
                     | Ok st => Ok (a ++ st.1, b ++ st.2)
                     | Raise e => Raise e
                     end) ->
  forall xs a b,
    for_each body xs (a, b)
    = match for_each body xs ([], []) with
      | Ok st => Ok (a ++ st.1, b ++ st.2)
      | Raise e => Raise e
      end.
Proof.
  intros Hb. induction xs as [|x xs IH]; intros a b; cbn [for_each].
  - rewrite !app_nil_r. reflexivity.
  - rewrite (Hb a b x). destruct (body ([], []) x) as [[a1 b1]|e]; [|reflexivity].
    rewrite !bind_Ok. cbn [fst snd]. rewrite (IH (a ++ a1) (b ++ b1)), (IH a1 b1).
    destruct (for_each body xs ([], [])) as [[a2 b2]|e]; [|reflexivity].
    cbn [fst snd]. rewrite !app_assoc. reflexivity.
Qed.

Lemma for_each_concat {X}
    (body : list pystr * list pystr -> X -> res (list pystr * list pystr)) :
  (forall a b x,
     body (a, b) x = match body ([], []) x with
                     | Ok st => Ok (a ++ st.1, b ++ st.2)
                     | Raise e => Raise e
                     end) ->
  forall xs ys a1 b1 a2 b2,
    for_each body xs ([], []) = Ok (a1, b1) ->
    for_each body ys ([], []) = Ok (a2, b2) ->
    for_each body (xs ++ ys) ([], []) = Ok (a1 ++ a2, b1 ++ b2).
Proof.
  intros Hb xs ys a1 b1 a2 b2 Hx Hy.
  rewrite for_each_app, Hx, bind_Ok, (for_each_shift body Hb ys a1 b1), Hy.
  reflexivity.
Qed.

(** X22.  The records of a tabular export do not interfere: when the
    header with one batch of record lines gives some lines, and the same
    header with a second batch gives others, the header with both batches
    one after the other gives the lines of the first followed by those of
    the second, in each block. *)
Theorem X22_csv_batches_concatenate `{CaseTable}
    (header_line batch1 batch2 : pystr)
    (main1 lands1 main2 lands2 : list pystr) :
  readlines header_line = [header_line] ->
  endswith header_line [NL] = true ->
  batch1 = [] \/ endswith batch1 [NL] = true ->
  Csv.main_lines (header_line ++ batch1) = Ok (main1, lands1) ->
  Csv.main_lines (header_line ++ batch2) = Ok (main2, lands2) ->
  Csv.main_lines (header_line ++ batch1 ++ batch2)
  = Ok (main1 ++ main2, lands1 ++ lands2).
Proof.
  intros Hone Hnl Hb1. unfold Csv.main_lines.
  rewrite !(readlines_app header_line) by (right; exact Hnl).
  rewrite (readlines_app batch1 batch2 Hb1), Hone.
  cbn [app List.map].
  change (getitem (split COMMA header_line :: ?l) 0)
    with (Ok (A:=list pystr) (split COMMA header_line)).
  rewrite !bind_Ok. unfold tail_slice. cbn [drop]. rewrite !drop_0.
  destruct (index (split COMMA header_line) (lit "count")) as [ic|]; [|discriminate].
  destruct (index (split COMMA header_line) (lit "name")) as [iname|]; [|discriminate].
  rewrite !bind_Ok, List.map_app. intros H1 H2.
  apply (for_each_concat _ (csv_card_body_shift _ _ _) _ _ _ _ _ _ H1 H2).
Qed.

(** X23.  The sections of a structured document do not interfere either:
    the lines of a document whose sections are two lists of sections one
    after the other are the lines of the first followed by those of the
    second, in each block. *)
Theorem X23_json_sections_concatenate `{CaseTable}
    (deck1 deck2 deck12 : Json.json) (include : list pystr)
    (sections1 sections2 : list (pystr * Json.json))
    (main1 lands1 main2 lands2 : list pystr) :
  Json.subscript deck1 (lit "entries") = Ok (Json.JDict sections1) ->
  Json.subscript deck2 (lit "entries") = Ok (Json.JDict sections2) ->
  Json.subscript deck12 (lit "entries")
  = Ok (Json.JDict (sections1 ++ sections2)) ->
  Json.txt_lines deck1 include = Ok (main1, lands1) ->
  Json.txt_lines deck2 include = Ok (main2, lands2) ->
  Json.txt_lines deck12 include = Ok (main1 ++ main2, lands1 ++ lands2).
Proof.
  intros H1 H2 H12. unfold Json.txt_lines.
  rewrite H1, H2, H12, !bind_Ok. cbn [Json.items]. rewrite !bind_Ok.
  apply for_each_concat. intros a b [sec cards].
  unfold Json.section_body. cbv zeta.
  destruct (contains include sec || contains include (lit "all")).
  - destruct (Json.iterate cards) as [cs|]; [|reflexivity]. rewrite !bind_Ok.
    apply (for_each_shift _ json_card_body_shift).
  - cbn [fst snd]. rewrite !app_nil_r. reflexivity.
Qed.

(** ** Deciding side conditions on concrete strings *)

Lemma forallb_elem_of (P : N -> bool) (s : pystr) :
  List.forallb P s = true -> forall c, c ∈ s -> P c = true.
Proof.
  intros H c Hc. rewrite List.forallb_forall in H. apply H, list_elem_of_In, Hc.
Qed.

Lemma char_not_in (c : N) (s : pystr) :
  List.forallb (fun d => negb (d =? c)) s = true -> c ∉ s.
Proof.
  intros H Hc. apply (forallb_elem_of _ _ H) in Hc.
  rewrite N.eqb_refl in Hc. discriminate.
Qed.

(** ** Concrete runs: witnesses and counterexamples *)

#[local] Existing Instance Sample.plain_table.

Lemma C2_banner_by_pipeline_witness :
  events (Csv.main (lit "deck.csv") (lit "deck.txt")
            (Sample.world_with (lit "deck.csv") Sample.csv_deck)).2
  = [Write (lit "deck.txt")
       (lit "1 Sol Ring [CMM] 400" ++ banner ++ lit "Plains (260) - Plains (M21)")].
Proof.
  refine (proj1 (C2_banner_by_pipeline (lit "deck.csv") (lit "deck.txt") Sample.csv_deck
            (Sample.world_with (lit "deck.csv") Sample.csv_deck)
            [lit "1 Sol Ring [CMM] 400"] [lit "Plains (260) - Plains (M21)"]
            Sample.doc_deck [lit "all"] None Sample.empty_world
            [lit "1 Atraxa [CMM] 12"; lit "2 Food"] [lit "Plains (260) - (M21)"]
            _ _ _)); vm_compute; reflexivity.
Defined.

Lemma C2_counterexample :
  Json.txt_lines Sample.doc_no_lands [lit "all"] = Ok ([lit "1 Atraxa [CMM] 12"], [])
  /\ occurs banner
       (stdout (events (Json.txt_of_deck_list Sample.doc_no_lands [lit "all"] None
                          Sample.empty_world).2)) = false
  /\ Csv.main_lines Sample.csv_no_lands = Ok ([lit "1 Sol Ring [CMM] 400"], [])
  /\ occurs banner
       (stdout (events (Csv.main (lit "deck.csv") []
                          (Sample.world_with (lit "deck.csv") Sample.csv_no_lands)).2))
     = true.
Proof. repeat split; vm_compute; reflexivity. Qed.

Lemma C3_destination_or_stdout_witness :
  written (lit "deck.txt")
    (events (Csv.main (lit "deck.csv") (lit "deck.txt")
               (Sample.world_with (lit "deck.csv") Sample.csv_deck)).2)
  = [lit "1 Sol Ring [CMM] 400" ++ banner ++ lit "Plains (260) - Plains (M21)"]
  /\ stdout
       (events (Csv.main (lit "deck.csv") (lit "deck.txt")
                  (Sample.world_with (lit "deck.csv") Sample.csv_deck)).2)
     = [].
Proof.
  refine (proj1 (C3_destination_or_stdout (lit "deck.csv") (lit "deck.txt")
            Sample.csv_deck (Sample.world_with (lit "deck.csv") Sample.csv_deck)
            [lit "1 Sol Ring [CMM] 400"] [lit "Plains (260) - Plains (M21)"]
            Sample.doc_deck [lit "all"] (Some (lit "deck.txt")) Sample.empty_world
            [lit "1 Atraxa [CMM] 12"; lit "2 Food"] [lit "Plains (260) - (M21)"]
            _ _ _) _); try (vm_compute; reflexivity). discriminate.
Defined.

Lemma C3_counterexample :
  Json.txt_lines Sample.doc_deck [lit "all"]
  = Ok ([lit "1 Atraxa [CMM] 12"; lit "2 Food"], [lit "Plains (260) - (M21)"])
  /\ written (lit "deck.txt")
       (events (Json.txt_of_deck_list Sample.doc_deck [lit "all"]
                  (Some (lit "deck.txt")) Sample.empty_world).2)
     = [lit "1 Atraxa [CMM] 12" ++ [NL] ++ lit "2 Food"]
  /\ stdout
       (events (Json.txt_of_deck_list Sample.doc_deck [lit "all"]
                  (Some (lit "deck.txt")) Sample.empty_world).2)
     = banner ++ lit "Plains (260) - (M21)" ++ [NL].
Proof. repeat split; vm_compute; reflexivity. Qed.

Lemma C4_normalize_name_rejoins_witness :
  Csv.normalize_name 1 (split COMMA Sample.kurbis_row) 5
  = Ok (lit "Kurbis, Harvest Celebrant", 1%Z)
  /\ Csv.card_body (split COMMA (Sample.header ++ [NL])) 0 1 ([], [])
       (split COMMA Sample.kurbis_row)
     = Ok ([lit "1 Kurbis, Harvest Celebrant [C21] 386"], []).
Proof.
  assert (Hbefore : forall j f, (j < 1)%nat ->
            split COMMA Sample.kurbis_row !! (1 + j)%nat = Some f ->
            endswith f [QUOTE] = false).
  { intros j f Hj. destruct j; [|lia]. vm_compute. intros [= <-]. reflexivity. }
  destruct (C4_normalize_name_rejoins
              (split COMMA (Sample.header ++ [NL])) (split COMMA Sample.kurbis_row)
              1 1 0 2 3 (lit "1") ([QUOTE] ++ lit "Kurbis")
              (lit " Harvest Celebrant" ++ [QUOTE]) (lit "c21") (lit "386") [] []
              eq_refl eq_refl eq_refl eq_refl Hbefore)
    as (Hn & Hb & _); try (vm_compute; reflexivity).
  split; [apply (Hn 5%nat); apply Nat.ltb_lt; vm_compute; reflexivity | exact Hb].
Defined.

Lemma C6_section_inclusion_witness :
  Json.txt_lines Sample.doc_deck [lit "commanders"]
  = Ok ([lit "1 Atraxa [CMM] 12"], [])
  /\ Json.txt_lines Sample.doc_deck [lit "all"]
     = Ok ([lit "1 Atraxa [CMM] 12"; lit "2 Food"], [lit "Plains (260) - (M21)"]).
Proof.
  split.
  - rewrite (C6_section_inclusion Sample.doc_deck [lit "commanders"]
               [(lit "commanders", Json.JList [Sample.record 1 "Atraxa" "cmm" "12" true]);
                (lit "lands", Json.JList [Sample.record 5 "Plains" "m21" "260" true]);
                (lit "outside", Json.JList [Sample.record 2 "Food Token" "eld" "7" false])]);
      [vm_compute; reflexivity | vm_compute; reflexivity |].
    repeat constructor; eexists; reflexivity.
  - vm_compute. reflexivity.
Defined.

Lemma C7_printing_specified_witness :
  Json.card_body ([], []) (Sample.record 2 "Food Token" "eld" "7" false)
  = Ok ([lit "2 Food"], [])
  /\ Json.card_body ([], []) (Sample.record 1 "Atraxa" "cmm" "12" true)
     = Ok ([lit "1 Atraxa [CMM] 12"], []).
Proof.
  split.
  - exact (C7_printing_specified (Sample.record 2 "Food Token" "eld" "7" false)
             (Json.JDict [(lit "name", Json.JStr (lit "Food Token"));
                          (lit "set", Json.JStr (lit "eld"));
                          (lit "collector_number", Json.JStr (lit "7"))])
             2 (lit "Food Token") (lit "eld") (lit "7") false [] []
             eq_refl eq_refl eq_refl eq_refl eq_refl eq_refl eq_refl).
  - exact (C7_printing_specified (Sample.record 1 "Atraxa" "cmm" "12" true)
             (Json.JDict [(lit "name", Json.JStr (lit "Atraxa"));
                          (lit "set", Json.JStr (lit "cmm"));
                          (lit "collector_number", Json.JStr (lit "12"))])
             1 (lit "Atraxa") (lit "cmm") (lit "12") true [] []
             eq_refl eq_refl eq_refl eq_refl eq_refl eq_refl eq_refl).
Defined.

Lemma C5_basic_land_routing_witness :
  Json.card_body ([], []) (Sample.record 5 "Plains" "m21" "260" true)
  = Ok ([], [lit "Plains (260) - (M21)"])
  /\ Csv.card_body (split COMMA (Sample.header ++ [NL])) 0 1 ([], [])
       (split COMMA (lit "3,Plains,m21,260,en" ++ [NL]))
     = Ok ([], [lit "Plains (260) - Plains (M21)"]).
Proof.
  destruct (C5_basic_land_routing
              Sample.doc_deck [lit "all"]
              [(lit "commanders", Json.JList [Sample.record 1 "Atraxa" "cmm" "12" true]);
               (lit "lands", Json.JList [Sample.record 5 "Plains" "m21" "260" true]);
               (lit "outside", Json.JList [Sample.record 2 "Food Token" "eld" "7" false])]
              (lit "lands") [Sample.record 5 "Plains" "m21" "260" true]
              (Sample.record 5 "Plains" "m21" "260" true) (Json.JInt 5)
              (Json.JDict [(lit "name", Json.JStr (lit "Plains"));
                           (lit "set", Json.JStr (lit "m21"));
                           (lit "collector_number", Json.JStr (lit "260"))])
              (lit "Plains") (lit "m21") (lit "260")
              Sample.csv_deck (split COMMA (lit "3,Plains,m21,260,en" ++ [NL]))
              (split COMMA (Sample.header ++ [NL])) 0 1 0 2 3
              (lit "3") (lit "Plains") (lit "m21") (lit "260") (lit "Plains"))
    as (Hj & _ & Hc & _); try (vm_compute; reflexivity).
  - right. left.
  - left.
  - vm_compute. right. left.
  - split; [apply (Hj [] []) | apply (Hc [] [])].
Defined.

Lemma C5_counterexample :
  contains basic_lands (lit "Plains") = true
  /\ Json.txt_lines Sample.doc_maybeboard Sample.default_include
     = Ok ([lit "1 Atraxa [CMM] 12"], []).
Proof. split; vm_compute; reflexivity. Qed.

Lemma C8_first_face_idempotent_witness :
  Csv.fix_other_name_formatting_quirks (lit "Fire // Ice") = lit "Fire"
  /\ Json.fix_name_formatting_quirks (Json.fix_name_formatting_quirks (lit "Fire // Ice"))
     = Json.fix_name_formatting_quirks (lit "Fire // Ice").
Proof.
  destruct (C8_first_face_idempotent (lit "Fire // Ice") eq_refl eq_refl)
    as (Hc & _ & Hj & _).
  split; [exact Hc | apply (Hj eq_refl)].
Defined.

Lemma C8_counterexample :
  has_separator (lit "Food Token // Treasure") = true
  /\ Csv.fix_other_name_formatting_quirks
       (Csv.fix_other_name_formatting_quirks (lit "Food Token // Treasure"))
     <> Csv.fix_other_name_formatting_quirks (lit "Food Token // Treasure")
  /\ has_separator (lit "A / Token/ B // C") = true
  /\ Json.fix_name_formatting_quirks
       (Json.fix_name_formatting_quirks (lit "A / Token/ B // C"))
     <> Json.fix_name_formatting_quirks (lit "A / Token/ B // C")
  /\ Csv.fix_other_name_formatting_quirks (lit "Fire // Ice" ++ [NL] ++ lit "Age")
     = lit "Fire" ++ [NL] ++ lit "Age".
Proof. repeat split; vm_compute; (reflexivity || discriminate). Qed.

Lemma C9_missing_schema_element_witness :
  Csv.main (lit "deck.csv") (lit "deck.txt")
    (Sample.world_with (lit "deck.csv")
       (lit "count,title,set_code,collector_number,lang" ++ [NL]
        ++ lit "1,Sol Ring,cmm,400,en" ++ [NL]))
  = (Raise ValueError,
     Sample.world_with (lit "deck.csv")
       (lit "count,title,set_code,collector_number,lang" ++ [NL]
        ++ lit "1,Sol Ring,cmm,400,en" ++ [NL]))
  /\ Json.txt_of_deck_list (Json.JDict [(lit "name", Json.JStr (lit "sample"))])
       Sample.default_include (Some (lit "deck.txt")) Sample.empty_world
     = (Raise KeyError, Sample.empty_world).
Proof.
  destruct (C9_missing_schema_element (lit "deck.csv") (lit "deck.txt")
              (lit "count,title,set_code,collector_number,lang" ++ [NL]
               ++ lit "1,Sol Ring,cmm,400,en" ++ [NL])
              (Sample.world_with (lit "deck.csv")
                 (lit "count,title,set_code,collector_number,lang" ++ [NL]
                  ++ lit "1,Sol Ring,cmm,400,en" ++ [NL]))
              (lit "count,title,set_code,collector_number,lang" ++ [NL])
              [lit "1,Sol Ring,cmm,400,en" ++ [NL]]
              [(lit "name", Json.JStr (lit "sample"))]
              Sample.default_include (Some (lit "deck.txt")) Sample.empty_world)
    as (Hc & _ & Hj); try (vm_compute; reflexivity).
  split; [apply Hc; right; vm_compute; reflexivity | exact Hj].
Defined.

Lemma C9_counterexample :
  contains (split COMMA Sample.csv_header_only) (lit "set_code") = false
  /\ contains (split COMMA Sample.csv_header_only) (lit "collector_number") = false
  /\ (Csv.main (lit "deck.csv") (lit "deck.txt")
        (Sample.world_with (lit "deck.csv") Sample.csv_header_only)).1 = Ok tt
  /\ events (Csv.main (lit "deck.csv") (lit "deck.txt")
               (Sample.world_with (lit "deck.csv") Sample.csv_header_only)).2
     = [Write (lit "deck.txt") banner].
Proof. repeat split; vm_compute; reflexivity. Qed.

Lemma C10_line_terminator_kept_witness :
  (exists e, (e = ValueError \/ e = IndexError)
             /\ Csv.main_lines Sample.csv_number_last = Raise e)
  /\ (exists rendered,
        [lit "1 Sol Ring [CMM] 400" ++ [NL]] = [] ++ [rendered]
        /\ endswith rendered [NL] = true).
Proof.
  destruct (C10_line_terminator_kept
              Sample.csv_number_last
              (lit "count,name,set_code,collector_number" ++ [NL])
              (lit "1,Sol Ring,cmm,400" ++ [NL]) []
              [lit "count"; lit "name"; lit "set_code"]
              (split COMMA (Sample.header ++ [NL])) 0 1 3
              (lit "1,Sol Ring,cmm,400" ++ [NL]) (lit "Sol Ring", 0%Z)
              [] [] [lit "1 Sol Ring [CMM] 400" ++ [NL]] [])
    as (_ & Hraise & Hline); try (vm_compute; reflexivity).
  split; [exact Hraise | exact Hline].
Defined.

Lemma C10_counterexample :
  last (split COMMA (lit "count,name,set_code,collector_number" ++ [NL]))
  = Some (lit "collector_number" ++ [NL])
  /\ Csv.main_lines Sample.csv_number_last = Raise ValueError
  /\ ~ (exists new_lines lands line,
          Csv.main_lines Sample.csv_number_last = Ok (new_lines, lands)
          /\ line ∈ new_lines /\ endswith line [NL] = true)
  /\ Csv.main (lit "deck.csv") []
       (Sample.world_with (lit "deck.csv") Sample.csv_number_last)
     = (Raise ValueError, Sample.world_with (lit "deck.csv") Sample.csv_number_last).
Proof.
  assert (Hrun : Csv.main_lines Sample.csv_number_last = Raise ValueError)
    by (vm_compute; reflexivity).
  split; [vm_compute; reflexivity|]. split; [exact Hrun|]. split.
  - intros (new_lines & lands & line & Hok & _). rewrite Hrun in Hok. discriminate.
  - apply (csv_main_raise _ _ _ Sample.csv_number_last); [vm_compute; reflexivity|].
    exact Hrun.
Qed.

(** ** Concrete runs for the further properties *)


Lemma X2_normalize_name_leading_comma_witness :
  Csv.normalize_name 1
    ([lit "1"] ++ split COMMA ([QUOTE] ++ [COMMA] ++ lit " the Peasant" ++ [QUOTE])
     ++ [lit "c21"; lit "386"]) 4
  = Ok ([], 0%Z).
Proof.
  apply (X2_normalize_name_leading_comma [lit "1"] [lit "c21"; lit "386"]
           (lit " the Peasant") 4).
  apply Nat.ltb_lt. reflexivity.
Defined.

Lemma X3_normalize_name_unterminated_witness :
  Csv.normalize_name 1
    [lit "1"; [QUOTE] ++ lit "Kurbis"; lit " Harvest Celebrant"; lit "c21"] 3
  = Raise IndexError.
Proof.
  apply (X3_normalize_name_unterminated
           [lit "1"; [QUOTE] ++ lit "Kurbis"; lit " Harvest Celebrant"; lit "c21"]
           1 ([QUOTE] ++ lit "Kurbis") 3 eq_refl eq_refl).
  - apply Nat.ltb_lt. reflexivity.
  - intros [|[|[|j]]] f; simpl; intros [= <-]; reflexivity.
Defined.

Lemma X4_normalize_name_result_witness :
  startswith (lit "Kurbis, Harvest Celebrant") [QUOTE] = false
  /\ endswith (lit "Kurbis, Harvest Celebrant") [QUOTE] = false.
Proof.
  destruct (X4_normalize_name_result 1 (split COMMA Sample.kurbis_row) 5
              ([QUOTE] ++ lit "Kurbis") (lit "Kurbis, Harvest Celebrant") 1
              eq_refl eq_refl) as (_ & _ & Hq & _).
  apply Hq; [reflexivity|]. apply Nat.ltb_lt. reflexivity.
Defined.

Lemma X6_no_white_space_no_change_witness :
  Csv.fix_other_name_formatting_quirks (lit "Plains") = lit "Plains"
  /\ Json.fix_name_formatting_quirks (lit "Plains") = lit "Plains".
Proof.
  apply (X6_no_white_space_no_change (lit "Plains")).
  intros c Hc. apply negb_true_iff.
  revert c Hc. apply forallb_elem_of. reflexivity.
Defined.

Lemma X7_csv_result_has_no_separator_witness :
  has_separator (Csv.fix_other_name_formatting_quirks (lit "Fire // Ice // Storm"))
  = false.
Proof. apply (X7_csv_result_has_no_separator (lit "Fire // Ice // Storm")). reflexivity. Defined.

Lemma X8_fix_collector_number_witness :
  Json.fix_collector_number (lit "260") = lit "260".
Proof.
  destruct (X8_fix_collector_number (lit "260")) as (_ & _ & _ & Hsame).
  apply Hsame. intros c Hc. apply negb_true_iff.
  revert c Hc. apply forallb_elem_of. reflexivity.
Defined.

Lemma X9_csv_one_line_per_record_witness :
  (length [lit "1 Sol Ring [CMM] 400"] + length [lit "Plains (260) - Plains (M21)"]
   = length (readlines Sample.csv_deck) - 1)%nat.
Proof.
  apply (X9_csv_one_line_per_record Sample.csv_deck). vm_compute. reflexivity.
Defined.

Lemma X10_json_one_line_per_record_witness :
  (length [lit "1 Atraxa [CMM] 12"; lit "2 Food"] + length [lit "Plains (260) - (M21)"]
   = length (selected_cards [lit "all"]
               [(lit "commanders", Json.JList [Sample.record 1 "Atraxa" "cmm" "12" true]);
                (lit "lands", Json.JList [Sample.record 5 "Plains" "m21" "260" true]);
                (lit "outside", Json.JList [Sample.record 2 "Food Token" "eld" "7" false])]))%nat.
Proof.
  apply (X10_json_one_line_per_record Sample.doc_deck [lit "all"]).
  - vm_compute. reflexivity.
  - repeat constructor; eexists; reflexivity.
  - vm_compute. reflexivity.
Defined.



Lemma X13_only_the_destination_changes_witness :
  files (Csv.main (lit "deck.csv") (lit "deck.txt")
           (Sample.world_with (lit "deck.csv") Sample.csv_deck)).2 !! lit "deck.csv"
  = Some Sample.csv_deck
  /\ files (Csv.main (lit "deck.csv") (lit "deck.txt")
              (Sample.world_with (lit "deck.csv") Sample.csv_deck)).2 !! lit "deck.txt"
     = Some (lit "1 Sol Ring [CMM] 400" ++ banner ++ lit "Plains (260) - Plains (M21)").
Proof.
  destruct (X13_only_the_destination_changes (lit "deck.csv") (lit "deck.txt")
              Sample.doc_deck [lit "all"] None
              (Sample.world_with (lit "deck.csv") Sample.csv_deck) (lit "deck.csv"))
    as (Hframe & _ & Hwritten & _).
  split.
  - rewrite Hframe; [vm_compute; reflexivity|]. right. discriminate.
  - apply (Hwritten Sample.csv_deck [lit "1 Sol Ring [CMM] 400"]
             [lit "Plains (260) - Plains (M21)"]); vm_compute; reflexivity.
Defined.

Lemma X14_csv_header_only_witness :
  Csv.main_lines Sample.csv_header_only = Ok ([], [])
  /\ (Csv.main (lit "deck.csv") []
        (Sample.world_with (lit "deck.csv") Sample.csv_header_only)).1 = Ok tt
  /\ events (Csv.main (lit "deck.csv") []
               (Sample.world_with (lit "deck.csv") Sample.csv_header_only)).2
     = [Print banner].
Proof.
  apply (X14_csv_header_only (lit "deck.csv") [] Sample.csv_header_only
           (lit "count,name")); vm_compute; reflexivity.
Defined.

Lemma X15_csv_record_without_comma_witness :
  exists e, (e = IndexError \/ e = ValueError)
            /\ Csv.main_lines (Sample.csv_no_lands ++ [NL]) = Raise e
            /\ Csv.main (lit "deck.csv") (lit "deck.txt")
                 (Sample.world_with (lit "deck.csv") (Sample.csv_no_lands ++ [NL]))
               = (Raise e,
                  Sample.world_with (lit "deck.csv") (Sample.csv_no_lands ++ [NL])).
Proof.
  apply (X15_csv_record_without_comma (lit "deck.csv") (lit "deck.txt")
           (Sample.csv_no_lands ++ [NL]) (Sample.header ++ [NL]) [NL]
           [lit "1,Sol Ring,cmm,400,en" ++ [NL]; [NL]]).
  - vm_compute. reflexivity.
  - vm_compute. reflexivity.
  - right. left.
  - apply char_not_in. reflexivity.
Defined.

Lemma X16_csv_land_label_wraps_witness :
  Csv.card_body (split COMMA (lit "set_code,name,count,collector_number,lang" ++ [NL]))
    2 1 ([], []) (split COMMA (lit "m21,Plains,3,260,en" ++ [NL]))
  = Ok ([], [lit "Plains (260) - en" ++ [NL] ++ lit " (M21)"]).
Proof.
  apply (X16_csv_land_label_wraps
           (split COMMA (lit "set_code,name,count,collector_number,lang" ++ [NL]))
           (split COMMA (lit "m21,Plains,3,260,en" ++ [NL])) 2 1 3
           (lit "3") (lit "Plains") (lit "m21") (lit "260") (lit "en" ++ [NL]) [] []);
    vm_compute; reflexivity.
Defined.

Lemma X17_include_is_a_set_witness :
  Json.txt_lines Sample.doc_deck [lit "lands"; lit "commanders"; lit "lands"]
  = Json.txt_lines Sample.doc_deck [lit "commanders"; lit "lands"].
Proof.
  destruct (X17_include_is_a_set Sample.doc_deck
              [lit "lands"; lit "commanders"; lit "lands"]
              [lit "commanders"; lit "lands"]) as [Hsame _].
  apply Hsame. intros x. unfold contains. simpl.
  destruct (pystr_eqb x (lit "lands")), (pystr_eqb x (lit "commanders")); reflexivity.
Defined.

Lemma X18_unselected_sections_ignored_witness :
  Json.txt_lines Sample.doc_maybeboard Sample.default_include
  = Json.txt_lines Sample.doc_no_lands Sample.default_include.
Proof.
  apply (X18_unselected_sections_ignored Sample.doc_maybeboard Sample.doc_no_lands
           Sample.default_include
           [(lit "commanders", Json.JList [Sample.record 1 "Atraxa" "cmm" "12" true]);
            (lit "maybeboard", Json.JList [Sample.record 5 "Plains" "m21" "260" true])]);
    vm_compute; reflexivity.
Defined.



Lemma X21_fix_set_code_ascii_witness :
  @Json.fix_set_code Sample.plain_table (lit "m21")
  = @Json.fix_set_code {| upper_beyond_ascii := fun _ => [] |} (lit "m21").
Proof.
  destruct (X21_fix_set_code_ascii Sample.plain_table
              {| upper_beyond_ascii := fun _ => [] |} (lit "m21"))
    as (_ & _ & Hsame & _); [|exact Hsame].
  apply forallb_elem_of. reflexivity.
Defined.

Lemma X22_csv_batches_concatenate_witness :
  Csv.main_lines
    ((Sample.header ++ [NL]) ++ (lit "1,Sol Ring,cmm,400,en" ++ [NL])
     ++ (lit "3,Plains,m21,260,en" ++ [NL]))
  = Ok ([lit "1 Sol Ring [CMM] 400"] ++ [],
        [] ++ [lit "Plains (260) - Plains (M21)"]).
Proof.
  apply (X22_csv_batches_concatenate (Sample.header ++ [NL])
           (lit "1,Sol Ring,cmm,400,en" ++ [NL]) (lit "3,Plains,m21,260,en" ++ [NL])).
  - vm_compute. reflexivity.
  - vm_compute. reflexivity.
  - right. vm_compute. reflexivity.
  - vm_compute. reflexivity.
  - vm_compute. reflexivity.
Defined.

Lemma X23_json_sections_concatenate_witness :
  Json.txt_lines
    (Sample.deck
       [(lit "commanders", Json.JList [Sample.record 1 "Atraxa" "cmm" "12" true]);
        (lit "lands", Json.JList [Sample.record 5 "Plains" "m21" "260" true])])
    [lit "all"]
  = Ok ([lit "1 Atraxa [CMM] 12"] ++ [], [] ++ [lit "Plains (260) - (M21)"]).
Proof.
  apply (X23_json_sections_concatenate
           (Sample.deck [(lit "commanders",
                          Json.JList [Sample.record 1 "Atraxa" "cmm" "12" true])])
           (Sample.deck [(lit "lands",
                          Json.JList [Sample.record 5 "Plains" "m21" "260" true])])
           _ [lit "all"]
           [(lit "commanders", Json.JList [Sample.record 1 "Atraxa" "cmm" "12" true])]
           [(lit "lands", Json.JList [Sample.record 5 "Plains" "m21" "260" true])]);
    vm_compute; reflexivity.
Defined.
